(** * figmasjon: the selection exporter

    A shallow embedding of [processNode] and
    [exportSelectedWithDescendantsToJSON] of [widget-src/code.tsx], of the
    earlier shape of the two functions that lists property names, and of the
    part of [JSON.stringify] that decides which properties reach the
    exported document, followed by the properties of the export. *)

From Stdlib Require Import QArith.
From stdpp Require Import base option list strings gmap.

Set Warnings "-register-all".

Local Open Scope string_scope.
Local Open Scope list_scope.

(** ** JavaScript values *)

(** A JavaScript [number].  The exporter only copies numbers, so a finite
    number is kept as the rational it denotes; the three values that are not
    finite are kept apart because [JSON.stringify] writes them as [null]. *)
Inductive number : Type :=
| Finite (q : Q)
| NaN
| Infinity (negative : bool).

(** The values the exporter reads and builds.  An object keeps its own
    properties in insertion order, which is the order [JSON.stringify]
    writes them in. *)
Inductive value : Type :=
| VUndefined
| VNull
| VBool (b : bool)
| VNumber (n : number)
| VString (s : string)
| VSymbol (description : string)
| VArray (elements : list value)
| VObject (properties : list (string * value)).

Abbreviation props := (list (string * value)).

(** [figma.mixed] is a unique symbol of the host. *)
Definition figma_mixed : value := VSymbol "figma.mixed".

(** [v === figma.mixed] *)
Definition is_mixed (v : value) : bool :=
  match v with
  | VSymbol d => String.eqb d "figma.mixed"
  | _ => false
  end.

(** [v === figma.mixed ? undefined : v] *)
Definition unless_mixed (v : value) : value :=
  if is_mixed v then VUndefined else v.

(** *** Own properties of an object under construction *)

Fixpoint lookup_prop (k : string) (ps : props) : option value :=
  match ps with
  | [] => None
  | (k', v) :: r => if String.eqb k k' then Some v else lookup_prop k r
  end.

(** [o.k]: reading a property that the object does not have gives
    [undefined]. *)
Definition get_prop (k : string) (ps : props) : value :=
  default VUndefined (lookup_prop k ps).

(** [k in o], for an object without prototype properties. *)
Definition has_prop (k : string) (ps : props) : bool :=
  bool_decide (is_Some (lookup_prop k ps)).

(** [o.k = v]: an existing property keeps its place, a new one is added
    last. *)
Fixpoint set_prop (k : string) (v : value) (ps : props) : props :=
  match ps with
  | [] => [(k, v)]
  | (k', v') :: r =>
      if String.eqb k k' then (k, v) :: r else (k', v') :: set_prop k v r
  end.

Definition keys (ps : props) : list string := map fst ps.

(** ** JSON documents *)

Inductive json : Type :=
| JNull
| JBool (b : bool)
| JNumber (q : Q)
| JString (s : string)
| JArray (elements : list json)
| JObject (members : list (string * json)).

(** [JSON.stringify] up to the layout of the text.  [None] stands for the
    result [undefined]: [undefined] and symbols have no JSON form.  Inside
    an array such an element is written [null]; inside an object the
    property is left out.  A number that is not finite is written [null]. *)
Fixpoint JSON_stringify (v : value) : option json :=
  match v with
  | VUndefined => None
  | VSymbol _ => None
  | VNull => Some JNull
  | VBool b => Some (JBool b)
  | VNumber (Finite q) => Some (JNumber q)
  | VNumber _ => Some JNull
  | VString s => Some (JString s)
  | VArray l => Some (JArray (map (fun x => default JNull (JSON_stringify x)) l))
  | VObject ps =>
      Some (JObject
        ((fix members (ps : props) : list (string * json) :=
            match ps with
            | [] => []
            | (k, x) :: r =>
                match JSON_stringify x with
                | Some j => (k, j) :: members r
                | None => members r
                end
            end) ps))
  end.

(** The element written for [v] inside an array. *)
Definition element (v : value) : json := default JNull (JSON_stringify v).

(** The members written for the properties [ps] of an object. *)
Fixpoint members (ps : props) : list (string * json) :=
  match ps with
  | [] => []
  | (k, x) :: r =>
      match JSON_stringify x with
      | Some j => (k, j) :: members r
      | None => members r
      end
  end.

Fixpoint lookup_member (k : string) (ms : list (string * json)) : option json :=
  match ms with
  | [] => None
  | (k', j) :: r => if String.eqb k k' then Some j else lookup_member k r
  end.

(** The member [k] of a JSON object, if the document is an object that has
    one. *)
Definition member (k : string) (j : json) : option json :=
  match j with
  | JObject ms => lookup_member k ms
  | _ => None
  end.

(** ** Scene nodes *)

(** A node of the host's scene graph, as [processNode] reads it: the eight
    attributes every [SceneNode] has, the remaining properties of the host
    object (those of its subtype, such as [layoutMode], [characters] or
    [fills]), and the child sequence of the subtypes that have one. *)
Inductive SceneNode : Type := mkSceneNode {
  node_type : string;
  node_name : string;
  node_x : number;
  node_y : number;
  node_width : number;
  node_height : number;
  node_id : string;
  node_visible : bool;
  node_extra : gmap string value;
  node_children : option (list SceneNode)
}.

(** [k in node], for the properties of the subtype. *)
Definition node_has (node : SceneNode) (k : string) : bool :=
  bool_decide (is_Some (node_extra node !! k)).

(** [node.k], for the properties of the subtype. *)
Definition node_get (node : SceneNode) (k : string) : value :=
  default VUndefined (node_extra node !! k).

(** ** [processNode] *)

(** The object literal that starts [nodeData]. *)
Definition common_fields (node : SceneNode) : props :=
  [ ("type", VString (node_type node));
    ("name", VString (node_name node));
    ("x", VNumber (node_x node));
    ("y", VNumber (node_y node));
    ("width", VNumber (node_width node));
    ("height", VNumber (node_height node));
    ("id", VString (node_id node));
    ("visible", VBool (node_visible node)) ].

(** The clauses of the [switch], named after the variable each declares. *)
Inductive clause : Type :=
| FrameClause
| TextClause
| RectClause
| ComponentSetClause
| ComponentClause
| VectorClause.

(** The [case] labels in the order of the source text, each with the clause
    it leads to.  The labels ['FRAME'], ['INSTANCE'] and ['COMPONENT'] are
    stacked on the first clause; ['COMPONENT'] labels a second clause
    further down. *)
Definition case_labels : list (string * clause) :=
  [ ("FRAME", FrameClause);
    ("INSTANCE", FrameClause);
    ("COMPONENT", FrameClause);
    ("TEXT", TextClause);
    ("RECTANGLE", RectClause);
    ("COMPONENT_SET", ComponentSetClause);
    ("COMPONENT", ComponentClause);
    ("VECTOR", VectorClause) ].

(** A [switch] runs the clause of the first label that is strictly equal to
    the discriminant, and none when there is no such label (the statement has
    no [default]). *)
Fixpoint select_clause (ty : string) (labels : list (string * clause)) : option clause :=
  match labels with
  | [] => None
  | (l, c) :: r => if String.eqb ty l then Some c else select_clause ty r
  end.

(** [data.k = node.k] *)
Definition copy (node : SceneNode) (k : string) (data : props) : props :=
  set_prop k (node_get node k) data.

(** [data.k = node.k === figma.mixed ? undefined : node.k] *)
Definition copy_unless_mixed (node : SceneNode) (k : string) (data : props) : props :=
  set_prop k (unless_mixed (node_get node k)) data.

Definition layout_fields : list string :=
  [ "layoutMode"; "primaryAxisSizingMode"; "counterAxisSizingMode";
    "paddingLeft"; "paddingRight"; "paddingTop"; "paddingBottom" ].

(** Statements in sequence: [data |> f |> g] runs [f], then [g]. *)
Local Notation "data |> f" := (f data)
  (at level 45, left associativity, only parsing).

(** The body of a clause, up to its [break]. *)
Definition run_clause (c : clause) (node : SceneNode) (nodeData : props) : props :=
  match c with
  | FrameClause =>
      if node_has node "layoutMode" then
        nodeData
        |> copy node "layoutMode"
        |> copy node "primaryAxisSizingMode"
        |> copy node "counterAxisSizingMode"
        |> copy node "paddingLeft"
        |> copy node "paddingRight"
        |> copy node "paddingTop"
        |> copy node "paddingBottom"
      else nodeData
  | TextClause =>
      nodeData
      |> copy node "characters"
      |> copy_unless_mixed node "fontSize"
      |> copy_unless_mixed node "fontName"
      |> copy node "textAlignHorizontal"
      |> copy node "textAlignVertical"
      |> copy_unless_mixed node "fills"
  | RectClause =>
      nodeData
      |> copy_unless_mixed node "cornerRadius"
      |> copy_unless_mixed node "fills"
      |> copy node "strokes"
      |> copy_unless_mixed node "strokeWeight"
  | ComponentSetClause =>
      nodeData
      |> set_prop "componentId" (VString (node_id node))
      |> set_prop "instanceName" (VString (node_name node))
  | ComponentClause =>
      nodeData
      |> set_prop "componentId" (VString (node_id node))
      |> set_prop "instanceName" (VString (node_name node))
  | VectorClause => nodeData
  end.

(** The whole [switch (node.type)]. *)
Definition type_specific (node : SceneNode) (nodeData : props) : props :=
  match select_clause (node_type node) case_labels with
  | Some c => run_clause c node nodeData
  | None => nodeData
  end.

(** A node has the property [children] when its subtype has a child
    sequence: ['children' in node] is [node_children node <> None]. *)
Fixpoint processNode (node : SceneNode) : value :=
  let nodeData := type_specific node (common_fields node) in
  VObject
    (match node with
     | mkSceneNode _ _ _ _ _ _ _ _ _ children =>
         match children with
         | Some cs =>
             if (0 <? length cs)%nat
             then set_prop "children" (VArray (map processNode cs)) nodeData
             else nodeData
         | None => nodeData
         end
     end).

(** The document written for a node: the JSON form of its [nodeData]. *)
Definition serialize (node : SceneNode) : json := element (processNode node).

(** ** The export *)

Record PageNode : Type := mkPageNode {
  page_name : string;
  page_id : string;
  page_selection : list SceneNode
}.

(** A message for the UI.  [msg_data] is the document whose text
    [JSON.stringify (_, null, 2)] returns ([None] when it returns
    [undefined]); the indented layout of that text is not part of the
    model. *)
Record UIMessage : Type := mkUIMessage {
  msg_type : string;
  msg_data : option json
}.

(** The part of the host the exporter touches: the current page, read only,
    and the messages posted to the UI so far, oldest first. *)
Record Figma : Type := mkFigma {
  currentPage : PageNode;
  ui_posted : list UIMessage
}.

(** [figma.ui.postMessage (m)] *)
Definition postMessage (m : UIMessage) (figma : Figma) : Figma :=
  {| currentPage := currentPage figma; ui_posted := ui_posted figma ++ [m] |}.

Definition error_payload : value :=
  VObject [ ("error", VString "No elements selected") ].

Definition selectionData (page : PageNode) : value :=
  VObject
    [ ("pageName", VString (page_name page));
      ("pageId", VString (page_id page));
      ("selectedNodes", VArray (map processNode (page_selection page))) ].

Definition exportSelectedWithDescendantsToJSON (figma : Figma) : Figma :=
  let page := currentPage figma in
  let selection := page_selection page in
  if (length selection =? 0)%nat then
    postMessage {| msg_type := "export"; msg_data := JSON_stringify error_payload |} figma
  else
    postMessage
      {| msg_type := "export"; msg_data := JSON_stringify (selectionData page) |} figma.

(** ** The shape of the input and of the output *)

(** The child sequence of a node, empty for a node without one. *)
Definition child_nodes (node : SceneNode) : list SceneNode :=
  default [] (node_children node).

Fixpoint countNodes (node : SceneNode) : nat :=
  match node with
  | mkSceneNode _ _ _ _ _ _ _ _ _ children =>
      match children with
      | Some cs => S (sum_list (map countNodes cs))
      | None => 1
      end
  end.

(** A node without children has depth one. *)
Fixpoint depth (node : SceneNode) : nat :=
  match node with
  | mkSceneNode _ _ _ _ _ _ _ _ _ children =>
      match children with
      | Some cs => S (max_list (map depth cs))
      | None => 1
      end
  end.

(** The nodes [d] levels below the roots [ns], from left to right. *)
Fixpoint level (d : nat) (ns : list SceneNode) : list SceneNode :=
  match d with
  | O => ns
  | S d' => level d' (flat_map child_nodes ns)
  end.

(** The elements of the [children] member of a document, none when it has no
    such member. *)
Definition json_children (j : json) : list json :=
  match member "children" j with
  | Some (JArray l) => l
  | _ => []
  end.

(** The number of node records in a document: the record itself and those
    below its [children] member. *)
Fixpoint json_count (j : json) : nat :=
  match j with
  | JObject ms =>
      S ((fix in_members (ms : list (string * json)) : nat :=
            match ms with
            | [] => 0
            | (k, x) :: r =>
                if String.eqb "children" k then
                  match x with
                  | JArray l =>
                      (fix in_elements (l : list json) : nat :=
                         match l with
                         | [] => 0
                         | c :: l' => json_count c + in_elements l'
                         end) l
                  | _ => 0
                  end
                else in_members r
            end) ms)
  | _ => 0
  end%nat.

Fixpoint json_depth (j : json) : nat :=
  match j with
  | JObject ms =>
      S ((fix in_members (ms : list (string * json)) : nat :=
            match ms with
            | [] => 0
            | (k, x) :: r =>
                if String.eqb "children" k then
                  match x with
                  | JArray l =>
                      (fix in_elements (l : list json) : nat :=
                         match l with
                         | [] => 0
                         | c :: l' => json_depth c `max` in_elements l'
                         end) l
                  | _ => 0
                  end
                else in_members r
            end) ms)
  | _ => 0
  end%nat.

Fixpoint json_level (d : nat) (js : list json) : list json :=
  match d with
  | O => js
  | S d' => json_level d' (flat_map json_children js)
  end.

(** ** The walk on a bounded call stack *)

(** [processNode] run with room for [stack] nested activations of itself:
    [None] when the walk needs more.  Each child is processed one activation
    deeper than its parent, as [node.children.map] calls back into
    [processNode]. *)
Fixpoint processNode_within (stack : nat) (node : SceneNode) : option value :=
  match stack with
  | O => None
  | S stack' =>
      let nodeData := type_specific node (common_fields node) in
      match node_children node with
      | Some cs =>
          if (0 <? length cs)%nat then
            match mapM (processNode_within stack') cs with
            | Some vs => Some (VObject (set_prop "children" (VArray vs) nodeData))
            | None => None
            end
          else Some (VObject nodeData)
      | None => Some (VObject nodeData)
      end
  end.

(** ** The variant that lists property names *)

(** The second shape of the exporter found in the repository: it has no
    [switch], leaves [id] and [visible] out and lists the names
    [Object.keys (node)] gives under [otherProperties].  Which names the host
    object owns is the host's matter, so [Object_keys] is a parameter. *)
Module PropertyNames.
Section WithObjectKeys.

Variable Object_keys : SceneNode -> list string.

Definition initial_fields (node : SceneNode) : props :=
  [ ("type", VString (node_type node));
    ("name", VString (node_name node));
    ("x", VNumber (node_x node));
    ("y", VNumber (node_y node));
    ("width", VNumber (node_width node));
    ("height", VNumber (node_height node));
    ("otherProperties", VArray (map VString (Object_keys node))) ].

Fixpoint processNode (node : SceneNode) : value :=
  let nodeData := initial_fields node in
  VObject
    (match node with
     | mkSceneNode _ _ _ _ _ _ _ _ _ children =>
         match children with
         | Some cs =>
             if (0 <? length cs)%nat
             then set_prop "children" (VArray (map processNode cs)) nodeData
             else nodeData
         | None => nodeData
         end
     end).

Definition serialize (node : SceneNode) : json := element (processNode node).

Definition selectionData (page : PageNode) : value :=
  VObject
    [ ("pageName", VString (page_name page));
      ("pageId", VString (page_id page));
      ("selectedNodes", VArray (map processNode (page_selection page))) ].

Definition exportSelectedWithDescendantsToJSON (figma : Figma) : Figma :=
  let page := currentPage figma in
  let selection := page_selection page in
  if (length selection =? 0)%nat then
    postMessage {| msg_type := "export"; msg_data := JSON_stringify error_payload |} figma
  else
    postMessage
      {| msg_type := "export"; msg_data := JSON_stringify (selectionData page) |} figma.

End WithObjectKeys.
End PropertyNames.

(** ** Notions the statements are written with *)

(** The last [if] of [processNode] on its own: [nodeData] after it, given
    the mapped children of a node that has a child sequence. *)
Definition attach_children (children : option (list value)) (nodeData : props) : props :=
  match children with
  | Some cs =>
      if (0 <? length cs)%nat then set_prop "children" (VArray cs) nodeData
      else nodeData
  | None => nodeData
  end.

(** The properties of the object [processNode] returns. *)
Definition fields (node : SceneNode) : props :=
  attach_children (map processNode <$> node_children node)
    (type_specific node (common_fields node)).

(** What [nodeData.children] holds after the last [if]. *)
Definition attached (chs : option (list value)) : option value :=
  match chs with
  | Some (c :: cs) => Some (VArray (c :: cs))
  | _ => None
  end.

(** The fields of a record that are not copied from an attribute of the same
    name: the eight of the literal, the two derived from [id] and [name], and
    [children]. *)
Definition derived_fields : list string :=
  [ "type"; "name"; "x"; "y"; "width"; "height"; "id"; "visible";
    "componentId"; "instanceName"; "children" ].

Definition frame_like (ty : string) : Prop :=
  ty = "FRAME" \/ ty = "INSTANCE" \/ ty = "COMPONENT".

(** The elements of the [selectedNodes] member of an exported document. *)
Definition selectedNodes (doc : json) : list json :=
  match member "selectedNodes" doc with
  | Some (JArray l) => l
  | _ => []
  end.

(** ** Building nodes *)

Definition leaf (ty name id : string) (extra : gmap string value) : SceneNode :=
  {| node_type := ty; node_name := name;
     node_x := Finite 0; node_y := Finite 0;
     node_width := Finite 100; node_height := Finite 40;
     node_id := id; node_visible := true;
     node_extra := extra; node_children := None |}.

Definition with_children (cs : list SceneNode) (node : SceneNode) : SceneNode :=
  {| node_type := node_type node; node_name := node_name node;
     node_x := node_x node; node_y := node_y node;
     node_width := node_width node; node_height := node_height node;
     node_id := node_id node; node_visible := node_visible node;
     node_extra := node_extra node; node_children := Some cs |}.

(** The node with its [visible] flag set to [b]. *)
Definition with_visible (b : bool) (node : SceneNode) : SceneNode :=
  {| node_type := node_type node; node_name := node_name node;
     node_x := node_x node; node_y := node_y node;
     node_width := node_width node; node_height := node_height node;
     node_id := node_id node; node_visible := b;
     node_extra := node_extra node; node_children := node_children node |}.

(** A chain of [d] nested frames around a leaf: trees of every depth. *)
Fixpoint chain (d : nat) : SceneNode :=
  match d with
  | O => leaf "RECTANGLE" "end" "9:0" ∅
  | S d' => with_children [chain d'] (leaf "FRAME" "link" "9:1" ∅)
  end.

(** ** Sample nodes *)

Definition sample_component : SceneNode :=
  leaf "COMPONENT" "Button" "1:2" (<["layoutMode" := VString "NONE"]> ∅).

Definition sample_component_set : SceneNode :=
  leaf "COMPONENT_SET" "Button" "123:4" ∅.

Definition sample_rect : SceneNode :=
  leaf "RECTANGLE" "box" "7:1"
    (<["cornerRadius" := VNumber (Finite 4)]>
       (<["fills" := figma_mixed]> (<["strokes" := VArray []]> ∅))).

Definition sample_mixed_strokes : SceneNode :=
  leaf "RECTANGLE" "outline" "7:2" (<["strokes" := figma_mixed]> ∅).

Definition sample_text (name id : string) : SceneNode :=
  leaf "TEXT" name id
    (<["characters" := VString "Hello"]>
       (<["fontSize" := figma_mixed]>
          (<["textAlignHorizontal" := VString "LEFT"]> ∅))).

Definition sample_frame : SceneNode :=
  with_children [sample_text "title" "2:1"; sample_text "body" "2:2"]
    (leaf "FRAME" "card" "2:0"
       (<["layoutMode" := VString "VERTICAL"]>
          (<["paddingLeft" := VNumber (Finite 8)]> ∅))).

Definition bare_instance : SceneNode :=
  with_children [] (leaf "INSTANCE" "icon" "3:0" ∅).

Definition sample_hidden : SceneNode := with_visible false sample_frame.

(** A host whose nodes own the one property [id]. *)
Definition sample_Object_keys : SceneNode -> list string :=
  fun _ => [ "id" ].

Definition sample_host : Figma :=
  {| currentPage :=
       {| page_name := "Page 1"; page_id := "0:1";
          page_selection := [sample_frame; sample_rect] |};
     ui_posted := [] |}.

(** ** The plugin script *)

(** The statements of [code.tsx] outside the two functions: the UI is shown,
    a handler for the messages of the UI is installed, and the export runs.
    The plugin is the host seen by the export together with what these
    statements change: the UI shown, the handler installed, and whether
    [figma.closePlugin] was called. *)
Record UI : Type := mkUI {
  ui_html : string;
  ui_width : Z;
  ui_height : Z
}.

(** The one function the script assigns to [figma.ui.onmessage]. *)
Inductive handler : Type :=
| CloseOnRequest.

Record Plugin : Type := mkPlugin {
  plugin_figma : Figma;
  plugin_ui : option UI;
  plugin_onmessage : option handler;
  plugin_closed : bool
}.

(** [figma.showUI (html, { width, height })] *)
Definition showUI (html : string) (width height : Z) (p : Plugin) : Plugin :=
  {| plugin_figma := plugin_figma p;
     plugin_ui := Some {| ui_html := html; ui_width := width; ui_height := height |};
     plugin_onmessage := plugin_onmessage p;
     plugin_closed := plugin_closed p |}.

(** [figma.ui.onmessage = h] *)
Definition set_onmessage (h : handler) (p : Plugin) : Plugin :=
  {| plugin_figma := plugin_figma p;
     plugin_ui := plugin_ui p;
     plugin_onmessage := Some h;
     plugin_closed := plugin_closed p |}.

(** [figma.closePlugin ()] *)
Definition closePlugin (p : Plugin) : Plugin :=
  {| plugin_figma := plugin_figma p;
     plugin_ui := plugin_ui p;
     plugin_onmessage := plugin_onmessage p;
     plugin_closed := true |}.

(** [v === 'close'] *)
Definition is_close (v : value) : bool :=
  match v with
  | VString s => String.eqb s "close"
  | _ => false
  end.

(** The body of the handler, [(msg: any) => { if (msg.type === 'close')
    figma.closePlugin () }].  Reading [msg.type] throws a [TypeError] when
    [msg] is [undefined] or [null] ([None]); a primitive or an array has no
    property [type], so the read gives [undefined]. *)
Definition on_message (msg : value) (p : Plugin) : option Plugin :=
  match msg with
  | VUndefined | VNull => None
  | VObject ps =>
      if is_close (get_prop "type" ps) then Some (closePlugin p) else Some p
  | _ => Some p
  end.

(** A message of the UI reaches the handler that is installed, if any. *)
Definition deliver (msg : value) (p : Plugin) : option Plugin :=
  match plugin_onmessage p with
  | Some CloseOnRequest => on_message msg p
  | None => Some p
  end.

(** The export, run on the host of the plugin. *)
Definition run_export (p : Plugin) : Plugin :=
  {| plugin_figma := exportSelectedWithDescendantsToJSON (plugin_figma p);
     plugin_ui := plugin_ui p;
     plugin_onmessage := plugin_onmessage p;
     plugin_closed := plugin_closed p |}.

(** The script from its first statement to its last, started on the host
    [figma] with no UI and no handler; [html] is the global [__html__]. *)
Definition plugin_script (html : string) (figma : Figma) : Plugin :=
  {| plugin_figma := figma; plugin_ui := None;
     plugin_onmessage := None; plugin_closed := false |}
  |> showUI html 300 400
  |> set_onmessage CloseOnRequest
  |> run_export.

(** ** Names read and written by the clauses *)

(** The properties a clause assigns, in the order of its statements. *)
Definition clause_fields (c : clause) : list string :=
  match c with
  | FrameClause => layout_fields
  | TextClause =>
      [ "characters"; "fontSize"; "fontName";
        "textAlignHorizontal"; "textAlignVertical"; "fills" ]
  | RectClause => [ "cornerRadius"; "fills"; "strokes"; "strokeWeight" ]
  | ComponentSetClause => [ "componentId"; "instanceName" ]
  | ComponentClause => [ "componentId"; "instanceName" ]
  | VectorClause => []
  end.

(** The properties the [switch] assigns for [node]: those of the clause its
    type selects, none for a frame-like node without [layoutMode] and none
    for a type without a clause. *)
Definition assigned_fields (node : SceneNode) : list string :=
  match select_clause (node_type node) case_labels with
  | Some FrameClause =>
      if node_has node "layoutMode" then clause_fields FrameClause else []
  | Some c => clause_fields c
  | None => []
  end.

(** The attributes of the subtype a clause reads. *)
Definition attributes_read (c : clause) : list string :=
  match c with
  | FrameClause | TextClause | RectClause => clause_fields c
  | ComponentSetClause | ComponentClause | VectorClause => []
  end.

(** The properties that are assigned from an attribute without the test
    against [figma.mixed]. *)
Definition unguarded_fields : list string :=
  layout_fields
  ++ [ "characters"; "textAlignHorizontal"; "textAlignVertical"; "strokes" ].

(** The node with the properties of its subtype replaced by [extra]. *)
Definition with_extra (extra : gmap string value) (node : SceneNode) : SceneNode :=
  {| node_type := node_type node; node_name := node_name node;
     node_x := node_x node; node_y := node_y node;
     node_width := node_width node; node_height := node_height node;
     node_id := node_id node; node_visible := node_visible node;
     node_extra := extra; node_children := node_children node |}.

Definition sample_vector : SceneNode :=
  leaf "VECTOR" "path" "8:1" (<["vectorPaths" := VArray []]> ∅).

Definition close_message : value :=
  VObject [ ("type", VString "close") ].

(** * Properties *)

(** Closed goals about lists of names: membership, distinctness. *)
Ltac decide_closed := apply (bool_decide_unpack _); vm_compute; reflexivity.

(** Case analysis on the name [k] against every name it is compared with in
    the goal; [tac] closes the case where the two are equal. *)
Ltac case_key k tac :=
  repeat match goal with
    | |- context [String.eqb k ?s] =>
        destruct (String.eqb_spec k s) as [->|]; [tac|]
    end.

(** ** Objects and their JSON form *)

Lemma lookup_set_prop (k k' : string) (v : value) (ps : props) :
  lookup_prop k (set_prop k' v ps)
  = if String.eqb k k' then Some v else lookup_prop k ps.
Proof.
  induction ps as [|[k0 v0] r IH]; simpl.
  - destruct (String.eqb_spec k k'); reflexivity.
  - destruct (String.eqb_spec k' k0) as [->|Hk0]; simpl.
    + destruct (String.eqb_spec k k0); reflexivity.
    + destruct (String.eqb_spec k k0) as [->|Hk].
      * destruct (String.eqb_spec k0 k'); congruence.
      * exact IH.
Qed.

Lemma lookup_prop_None (k : string) (ps : props) :
  lookup_prop k ps = None <-> k ∉ keys ps.
Proof.
  induction ps as [|[k0 v0] r IH]; simpl.
  - split; [intros _; apply not_elem_of_nil | reflexivity].
  - rewrite not_elem_of_cons.
    destruct (String.eqb_spec k k0) as [->|Hk]; split; try discriminate.
    + intros [[] _]; reflexivity.
    + intros H; split; [assumption | apply IH, H].
    + intros [_ H]; apply IH, H.
Qed.

Lemma set_prop_new (k : string) (v : value) (ps : props) :
  k ∉ keys ps -> set_prop k v ps = ps ++ [(k, v)].
Proof.
  induction ps as [|[k0 v0] r IH]; simpl; intros Hk; [reflexivity|].
  apply not_elem_of_cons in Hk as [Hne Hr].
  destruct (String.eqb_spec k k0); [contradiction|].
  now rewrite IH.
Qed.

Lemma keys_set_prop_old (k : string) (v : value) (ps : props) :
  k ∈ keys ps -> keys (set_prop k v ps) = keys ps.
Proof.
  unfold keys. induction ps as [|[k0 v0] r IH]; simpl; intros Hk.
  - now apply elem_of_nil in Hk.
  - destruct (String.eqb_spec k k0) as [->|Hne]; simpl; [reflexivity|].
    apply elem_of_cons in Hk as [?|Hk]; [contradiction|].
    now rewrite IH.
Qed.

Lemma NoDup_set_prop (k : string) (v : value) (ps : props) :
  NoDup (keys ps) -> NoDup (keys (set_prop k v ps)).
Proof.
  intros Hnd. destruct (decide (k ∈ keys ps)) as [Hin|Hout].
  - now rewrite keys_set_prop_old.
  - rewrite set_prop_new by assumption. unfold keys. rewrite map_app. simpl.
    apply NoDup_app. split; [assumption|]. split.
    + intros x Hx Hx'. apply list_elem_of_singleton in Hx' as ->. contradiction.
    + apply NoDup_singleton.
Qed.

(** Assignments to different properties commute as soon as the first one
    names a property the object already has. *)
Lemma set_prop_comm (k1 k2 : string) (v1 v2 : value) (ps : props) :
  k1 <> k2 -> k1 ∈ keys ps ->
  set_prop k1 v1 (set_prop k2 v2 ps) = set_prop k2 v2 (set_prop k1 v1 ps).
Proof.
  intros Hne. induction ps as [|[k0 v0] r IH]; simpl; intros Hin.
  - now apply elem_of_nil in Hin.
  - destruct (String.eqb_spec k2 k0) as [->|H2];
      destruct (String.eqb_spec k1 k0) as [->|H1]; simpl;
      rewrite ?String.eqb_refl; try congruence.
    + destruct (String.eqb_spec k1 k0); congruence.
    + destruct (String.eqb_spec k2 k0); congruence.
    + destruct (String.eqb_spec k1 k0); [congruence|].
      destruct (String.eqb_spec k2 k0); [congruence|].
      apply elem_of_cons in Hin as [?|Hin]; [congruence|].
      now rewrite IH.
Qed.

Lemma JSON_stringify_object (ps : props) :
  JSON_stringify (VObject ps) = Some (JObject (members ps)).
Proof. reflexivity. Qed.

Lemma JSON_stringify_array (l : list value) :
  JSON_stringify (VArray l) = Some (JArray (map element l)).
Proof. reflexivity. Qed.

Lemma keys_members (k : string) (ps : props) :
  k ∈ map fst (members ps) -> k ∈ keys ps.
Proof.
  unfold keys. induction ps as [|[k0 v0] r IH]; simpl; [trivial|].
  intros H. apply elem_of_cons.
  destruct (JSON_stringify v0); simpl in H; [|auto].
  apply elem_of_cons in H as [->|H]; auto.
Qed.

Lemma lookup_member_None (k : string) (ms : list (string * json)) :
  k ∉ map fst ms -> lookup_member k ms = None.
Proof.
  induction ms as [|[k0 j0] r IH]; simpl; [reflexivity|].
  rewrite not_elem_of_cons. intros [Hne Hr].
  destruct (String.eqb_spec k k0); [contradiction | auto].
Qed.

(** A property reaches the document exactly when its value has a JSON
    form. *)
Lemma lookup_members (k : string) (ps : props) :
  NoDup (keys ps) ->
  lookup_member k (members ps) = lookup_prop k ps ≫= JSON_stringify.
Proof.
  unfold keys. induction ps as [|[k0 v0] r IH]; simpl; [reflexivity|].
  intros Hnd. apply NoDup_cons in Hnd as [Hk0 Hnd].
  destruct (String.eqb_spec k k0) as [->|Hne]; simpl.
  - destruct (JSON_stringify v0) eqn:Hv; simpl.
    + now rewrite String.eqb_refl.
    + apply lookup_member_None. intros H. now apply keys_members in H.
  - destruct (JSON_stringify v0); simpl; [|auto].
    destruct (String.eqb_spec k k0); [contradiction | auto].
Qed.

(** ** Induction over a node and the nodes below it *)

Lemma SceneNode_tree_ind (P : SceneNode -> Prop) :
  (forall node,
      (forall cs, node_children node = Some cs -> Forall P cs) -> P node) ->
  forall node, P node.
Proof.
  intros step. fix IH 1. intros node. apply step.
  destruct node as [ty nm x y w h i vis extra [cs|]]; simpl;
    intros cs' Hcs; [|discriminate].
  injection Hcs as <-. induction cs as [|c cs IHcs]; constructor.
  - apply IH.
  - exact IHcs.
Qed.

(** ** [processNode], one step at a time *)

(** Runs the [switch] of [node] symbolically: one goal per clause, and one
    more for a type without a clause, with every lookup pushed through the
    assignments of the clause. *)
Ltac run_switch node :=
  unfold type_specific;
  destruct (select_clause (node_type node) case_labels) as [[]|];
  cbn [run_clause]; unfold copy, copy_unless_mixed;
  try destruct (node_has node "layoutMode");
  rewrite ?lookup_set_prop.

Lemma processNode_unfold (node : SceneNode) :
  processNode node
  = VObject
      (attach_children (map processNode <$> node_children node)
         (type_specific node (common_fields node))).
Proof.
  destruct node as [? ? ? ? ? ? ? ? ? [cs|]]; [|reflexivity].
  cbn [processNode fmap option_fmap option_map attach_children node_children].
  now rewrite length_map.
Qed.

Lemma processNode_fields (node : SceneNode) :
  processNode node = VObject (fields node).
Proof. apply processNode_unfold. Qed.

Lemma serialize_fields (node : SceneNode) :
  serialize node = JObject (members (fields node)).
Proof. unfold serialize, element. now rewrite processNode_fields. Qed.

Lemma NoDup_common_fields (node : SceneNode) : NoDup (keys (common_fields node)).
Proof. decide_closed. Qed.

Lemma NoDup_run_clause (c : clause) (node : SceneNode) (data : props) :
  NoDup (keys data) -> NoDup (keys (run_clause c node data)).
Proof.
  intros Hnd. destruct c; simpl; unfold copy, copy_unless_mixed;
    try destruct (node_has node "layoutMode");
    repeat apply NoDup_set_prop; exact Hnd.
Qed.

Lemma NoDup_type_specific (node : SceneNode) :
  NoDup (keys (type_specific node (common_fields node))).
Proof.
  unfold type_specific. destruct (select_clause _ _).
  - apply NoDup_run_clause, NoDup_common_fields.
  - apply NoDup_common_fields.
Qed.

Lemma NoDup_attach_children (chs : option (list value)) (data : props) :
  NoDup (keys data) -> NoDup (keys (attach_children chs data)).
Proof.
  intros Hnd. destruct chs as [cs|]; simpl; [|exact Hnd].
  destruct (0 <? length cs)%nat; [apply NoDup_set_prop|]; exact Hnd.
Qed.

Lemma NoDup_fields (node : SceneNode) : NoDup (keys (fields node)).
Proof. apply NoDup_attach_children, NoDup_type_specific. Qed.

Lemma lookup_attach_children (k : string) (chs : option (list value)) (data : props) :
  lookup_prop k (attach_children chs data)
  = if String.eqb k "children"
    then match attached chs with
         | Some v => Some v
         | None => lookup_prop "children" data
         end
    else lookup_prop k data.
Proof.
  destruct chs as [[|c cs]|]; simpl;
    rewrite ?lookup_set_prop;
    destruct (String.eqb_spec k "children") as [->|]; reflexivity.
Qed.

(** No clause of the [switch] writes [children]. *)
Lemma type_specific_children (node : SceneNode) :
  lookup_prop "children" (type_specific node (common_fields node)) = None.
Proof.
  run_switch node; reflexivity.
Qed.

Lemma lookup_fields (k : string) (node : SceneNode) :
  lookup_prop k (fields node)
  = if String.eqb k "children"
    then attached (map processNode <$> node_children node)
    else lookup_prop k (type_specific node (common_fields node)).
Proof.
  unfold fields. rewrite lookup_attach_children, type_specific_children.
  destruct (String.eqb k "children"); [|reflexivity].
  now destruct (attached _).
Qed.

Lemma member_serialize (k : string) (node : SceneNode) :
  member k (serialize node) = lookup_prop k (fields node) ≫= JSON_stringify.
Proof.
  rewrite serialize_fields. simpl. apply lookup_members, NoDup_fields.
Qed.

(** The switch leaves the eight attributes of the literal as they are. *)
Lemma lookup_common (k : string) (v : value) (node : SceneNode) :
  lookup_prop k (common_fields node) = Some v ->
  lookup_prop k (type_specific node (common_fields node)) = Some v.
Proof.
  intros H.
  run_switch node; try exact H;
    case_key k ltac:(simpl in H; discriminate H); exact H.
Qed.

(** Where a property of [nodeData] comes from once the [switch] is done:
    the literal, an attribute of the same name (copied as it is, or with the
    sentinel replaced), or the node's [id] and [name]. *)
Lemma type_specific_origin (k : string) (v : value) (node : SceneNode) :
  lookup_prop k (type_specific node (common_fields node)) = Some v ->
  lookup_prop k (common_fields node) = Some v
  \/ v = node_get node k
  \/ v = unless_mixed (node_get node k)
  \/ (k = "componentId" /\ v = VString (node_id node))
  \/ (k = "instanceName" /\ v = VString (node_name node)).
Proof.
  run_switch node; auto;
    case_key k ltac:(intros [= <-]; auto 7); auto.
Qed.

Lemma lookup_common_key (k : string) (v : value) (node : SceneNode) :
  lookup_prop k (common_fields node) = Some v -> k ∈ derived_fields.
Proof.
  intros H. destruct (decide (k ∈ derived_fields)) as [|Hout]; [assumption|].
  exfalso. unfold derived_fields in Hout.
  repeat (apply not_elem_of_cons in Hout as [? Hout]).
  simpl in H.
  repeat match type of H with
    | context [String.eqb k ?s] =>
        destruct (String.eqb_spec k s); [contradiction|]
    end.
  discriminate H.
Qed.

Lemma JSON_stringify_unless_mixed (v : value) :
  JSON_stringify v = None -> JSON_stringify (unless_mixed v) = None.
Proof. unfold unless_mixed. now destruct (is_mixed v). Qed.

Lemma unless_mixed_figma_mixed : unless_mixed figma_mixed = VUndefined.
Proof. reflexivity. Qed.

Lemma unless_mixed_not_mixed (v : value) : unless_mixed v <> figma_mixed.
Proof.
  unfold unless_mixed, figma_mixed.
  destruct v as [| | | | |d| |]; simpl; try discriminate.
  destruct (String.eqb_spec d "figma.mixed"); congruence.
Qed.

(** An attribute without a JSON form leaves no member of its name. *)
Lemma member_without_json (k : string) (node : SceneNode) :
  k ∉ derived_fields ->
  JSON_stringify (node_get node k) = None ->
  member k (serialize node) = None.
Proof.
  intros Hk Hv. rewrite member_serialize, lookup_fields.
  destruct (String.eqb_spec k "children") as [->|_].
  { exfalso. apply Hk. unfold derived_fields. set_solver. }
  destruct (lookup_prop k (type_specific _ _)) as [v|] eqn:Hl; [|reflexivity].
  apply type_specific_origin in Hl
    as [Hc | [-> | [-> | [[-> _] | [-> _]]]]]; simpl.
  - apply lookup_common_key in Hc. contradiction.
  - exact Hv.
  - now apply JSON_stringify_unless_mixed.
  - exfalso. apply Hk. unfold derived_fields. set_solver.
  - exfalso. apply Hk. unfold derived_fields. set_solver.
Qed.

Lemma node_get_absent (k : string) (node : SceneNode) :
  node_has node k = false -> node_get node k = VUndefined.
Proof.
  unfold node_has, node_get. intros H. apply bool_decide_eq_false in H.
  destruct (node_extra node !! k); [|reflexivity].
  exfalso. eauto.
Qed.

Lemma frame_like_clause (ty : string) :
  frame_like ty -> select_clause ty case_labels = Some FrameClause.
Proof. intros [-> | [-> | ->]]; reflexivity. Qed.

(** The second ['COMPONENT'] label is never reached. *)
Lemma ComponentClause_unreachable (ty : string) :
  select_clause ty case_labels <> Some ComponentClause.
Proof.
  simpl.
  repeat match goal with
    | |- context [String.eqb ty ?s] => destruct (String.eqb_spec ty s)
    end; congruence.
Qed.

(** A property of the literal reaches the document with the value the
    literal gave it. *)
Lemma member_of_common (k : string) (v : value) (node : SceneNode) :
  lookup_prop k (common_fields node) = Some v ->
  member k (serialize node) = JSON_stringify v.
Proof.
  intros H. rewrite member_serialize, lookup_fields.
  destruct (String.eqb_spec k "children") as [->|_]; [discriminate H|].
  now rewrite (lookup_common _ _ _ H).
Qed.

Lemma set_prop_twice (k : string) (v v' : value) (ps : props) :
  set_prop k v (set_prop k v' ps) = set_prop k v ps.
Proof.
  induction ps as [|[k0 v0] r IH]; cbn -[String.eqb].
  - now rewrite String.eqb_refl.
  - destruct (String.eqb_spec k k0) as [->|Hne]; cbn -[String.eqb].
    + now rewrite String.eqb_refl.
    + destruct (String.eqb_spec k k0); [contradiction|]. now rewrite IH.
Qed.

(** ** The fields of a record *)

(** For every input node, whatever its type, the record [processNode]
    writes has the eight common fields type, name, x, y, width, height, id
    and visible, each holding the node's own value. *)
Lemma common_fields_always_present (node : SceneNode) :
  member "type" (serialize node) = Some (JString (node_type node))
  /\ member "name" (serialize node) = Some (JString (node_name node))
  /\ member "x" (serialize node) = Some (element (VNumber (node_x node)))
  /\ member "y" (serialize node) = Some (element (VNumber (node_y node)))
  /\ member "width" (serialize node) = Some (element (VNumber (node_width node)))
  /\ member "height" (serialize node) = Some (element (VNumber (node_height node)))
  /\ member "id" (serialize node) = Some (JString (node_id node))
  /\ member "visible" (serialize node) = Some (JBool (node_visible node)).
Proof.
  repeat split;
    (erewrite member_of_common by reflexivity); try reflexivity.
  - now destruct (node_x node).
  - now destruct (node_y node).
  - now destruct (node_width node).
  - now destruct (node_height node).
Qed.

(** C8.  For every node whose type is COMPONENT_SET, the serialized record
    has componentId equal to the node's own id and instanceName equal to its
    own name, in the object [processNode] returns and in the document. *)
Theorem component_set_fields (node : SceneNode) :
  node_type node = "COMPONENT_SET" ->
  get_prop "componentId" (fields node) = VString (node_id node)
  /\ get_prop "instanceName" (fields node) = VString (node_name node)
  /\ member "componentId" (serialize node) = Some (JString (node_id node))
  /\ member "instanceName" (serialize node) = Some (JString (node_name node)).
Proof.
  intros Hty.
  assert (Hc : lookup_prop "componentId" (fields node) = Some (VString (node_id node))).
  { rewrite lookup_fields. unfold type_specific. rewrite Hty. reflexivity. }
  assert (Hi : lookup_prop "instanceName" (fields node) = Some (VString (node_name node))).
  { rewrite lookup_fields. unfold type_specific. rewrite Hty. reflexivity. }
  unfold get_prop. rewrite !member_serialize, Hc, Hi. repeat split.
Qed.

(** The scenario of the specification: id "123:4", name "Button". *)
Lemma component_set_fields_witness :
  node_type sample_component_set = "COMPONENT_SET"
  /\ member "componentId" (serialize sample_component_set) = Some (JString "123:4")
  /\ member "instanceName" (serialize sample_component_set) = Some (JString "Button").
Proof.
  split; [reflexivity|].
  apply (component_set_fields sample_component_set). reflexivity.
Defined.

(** A node of type COMPONENT runs the clause of the frame-like nodes, which
    writes neither [componentId] nor [instanceName]. *)
Lemma component_runs_frame_clause (node : SceneNode) :
  node_type node = "COMPONENT" ->
  lookup_prop "componentId" (fields node) = None
  /\ lookup_prop "instanceName" (fields node) = None.
Proof.
  intros Hty. rewrite !lookup_fields. unfold type_specific. rewrite Hty.
  cbn [String.eqb Ascii.eqb Bool.eqb select_clause case_labels run_clause].
  unfold copy. destruct (node_has node "layoutMode");
    rewrite ?lookup_set_prop; split; reflexivity.
Qed.

(** C1.  The component node with id "1:2" and name "Button" is serialized
    without componentId and without instanceName: the record has the common
    fields and the layout fields only. *)
Theorem component_fields_missing :
  node_type sample_component = "COMPONENT"
  /\ has_prop "componentId" (fields sample_component) = false
  /\ has_prop "instanceName" (fields sample_component) = false
  /\ member "componentId" (serialize sample_component) = None
  /\ member "instanceName" (serialize sample_component) = None
  /\ serialize sample_component
     = JObject
         [ ("type", JString "COMPONENT"); ("name", JString "Button");
           ("x", JNumber 0); ("y", JNumber 0);
           ("width", JNumber 100); ("height", JNumber 40);
           ("id", JString "1:2"); ("visible", JBool true);
           ("layoutMode", JString "NONE") ].
Proof. repeat split; vm_compute; reflexivity. Qed.

(** C2.  For every node and every attribute that holds the mixed sentinel
    on the input, the serialized output has no field of that name: the
    sentinel is written neither as a value nor as null.  The attribute is any
    property of the node's subtype, so any name other than those of the
    fields that are not copied from an attribute. *)
Theorem mixed_attribute_absent (node : SceneNode) (k : string) :
  k ∉ derived_fields ->
  node_get node k = figma_mixed ->
  member k (serialize node) = None.
Proof.
  intros Hk Hmixed. apply member_without_json; [exact Hk|].
  now rewrite Hmixed.
Qed.

Lemma mixed_attribute_absent_witness :
  node_get sample_rect "fills" = figma_mixed
  /\ member "fills" (serialize sample_rect) = None
  /\ member "cornerRadius" (serialize sample_rect) = Some (JNumber 4).
Proof.
  split; [reflexivity|]. split; [|reflexivity].
  apply (mixed_attribute_absent sample_rect "fills"); [|reflexivity].
  decide_closed.
Defined.

(** In the object itself a guarded attribute is held as [undefined], never
    as the sentinel. *)
Lemma guarded_attribute_undefined (node : SceneNode) (k : string) (data : props) :
  node_get node k = figma_mixed ->
  lookup_prop k (copy_unless_mixed node k data) = Some VUndefined.
Proof.
  intros H. unfold copy_unless_mixed. rewrite lookup_set_prop, String.eqb_refl.
  now rewrite H.
Qed.

(** [strokes] is copied without a guard: a sentinel there stays in the
    object, and it is [JSON.stringify] that leaves the symbol out. *)
Lemma strokes_copied_unguarded (node : SceneNode) :
  node_type node = "RECTANGLE" ->
  lookup_prop "strokes" (fields node) = Some (node_get node "strokes").
Proof.
  intros Hty. rewrite lookup_fields. unfold type_specific. rewrite Hty.
  reflexivity.
Qed.

Lemma layout_fields_not_derived (k : string) :
  k ∈ layout_fields -> k ∉ derived_fields.
Proof.
  unfold layout_fields. intros Hk.
  repeat (apply elem_of_cons in Hk as [->|Hk];
          [decide_closed|]).
  now apply elem_of_nil in Hk.
Qed.

Lemma layout_fields_copied (node : SceneNode) (k : string) :
  frame_like (node_type node) ->
  node_has node "layoutMode" = true ->
  k ∈ layout_fields ->
  lookup_prop k (fields node) = Some (node_get node k).
Proof.
  intros Hty Hhas Hk. rewrite lookup_fields. unfold type_specific.
  rewrite (frame_like_clause _ Hty). cbn [run_clause]. rewrite Hhas.
  unfold layout_fields in Hk. unfold copy.
  repeat (apply elem_of_cons in Hk as [->|Hk];
          [rewrite ?lookup_set_prop; reflexivity|]).
  now apply elem_of_nil in Hk.
Qed.

Lemma layout_fields_omitted (node : SceneNode) (k : string) :
  frame_like (node_type node) ->
  node_has node "layoutMode" = false ->
  k ∈ layout_fields ->
  lookup_prop k (fields node) = None.
Proof.
  intros Hty Hhas Hk. rewrite lookup_fields. unfold type_specific.
  rewrite (frame_like_clause _ Hty). cbn [run_clause]. rewrite Hhas.
  unfold layout_fields in Hk.
  repeat (apply elem_of_cons in Hk as [->|Hk]; [reflexivity|]).
  now apply elem_of_nil in Hk.
Qed.

(** C7.  [processNode] returns a record for every node and the record has a
    JSON form; an attribute the node does not have leaves no field of its
    name.  For a frame-like node (FRAME, INSTANCE, COMPONENT) that has
    [layoutMode], each of the seven layout fields is the node's attribute of
    that name; for one without [layoutMode], none of the seven is there. *)
Theorem processNode_total (node : SceneNode) :
  (processNode node = VObject (fields node)
   /\ JSON_stringify (processNode node) = Some (serialize node))
  /\ (forall k, k ∉ derived_fields -> node_has node k = false ->
        member k (serialize node) = None)
  /\ (frame_like (node_type node) -> node_has node "layoutMode" = true ->
        forall k, k ∈ layout_fields ->
          get_prop k (fields node) = node_get node k
          /\ member k (serialize node) = JSON_stringify (node_get node k))
  /\ (frame_like (node_type node) -> node_has node "layoutMode" = false ->
        forall k, k ∈ layout_fields ->
          has_prop k (fields node) = false
          /\ member k (serialize node) = None).
Proof.
  split; [|split; [|split]].
  - split; [apply processNode_fields|].
    now rewrite serialize_fields, processNode_fields.
  - intros k Hk Habs. apply member_without_json; [exact Hk|].
    now rewrite node_get_absent.
  - intros Hty Hhas k Hk.
    pose proof (layout_fields_copied node k Hty Hhas Hk) as Hl.
    unfold get_prop. rewrite member_serialize, Hl. split; reflexivity.
  - intros Hty Hhas k Hk.
    pose proof (layout_fields_omitted node k Hty Hhas Hk) as Hl.
    unfold has_prop. rewrite member_serialize, Hl. split; [|reflexivity].
    apply bool_decide_eq_false. intros [? [=]].
Qed.

Lemma processNode_total_witness :
  (frame_like (node_type sample_frame)
   /\ node_has sample_frame "layoutMode" = true
   /\ member "paddingLeft" (serialize sample_frame) = Some (JNumber 8)
   /\ member "paddingTop" (serialize sample_frame) = None)
  /\ (frame_like (node_type bare_instance)
      /\ node_has bare_instance "layoutMode" = false
      /\ member "layoutMode" (serialize bare_instance) = None).
Proof.
  assert (Hf : frame_like (node_type sample_frame)) by (left; reflexivity).
  assert (Hi : frame_like (node_type bare_instance)) by (right; left; reflexivity).
  split.
  - split; [exact Hf|]. split; [reflexivity|].
    destruct (processNode_total sample_frame) as (_ & _ & Hcopy & _).
    split.
    + apply (Hcopy Hf eq_refl "paddingLeft").
      decide_closed.
    + apply (Hcopy Hf eq_refl "paddingTop").
      decide_closed.
  - split; [exact Hi|]. split; [reflexivity|].
    destruct (processNode_total bare_instance) as (_ & _ & _ & Homit).
    apply (Homit Hi eq_refl "layoutMode").
    decide_closed.
Defined.

(** ** The shape of the output *)

Lemma attached_json (vs : list value) :
  attached (Some vs) ≫= JSON_stringify
  = match vs with
    | [] => None
    | _ :: _ => Some (JArray (map element vs))
    end.
Proof. destruct vs; reflexivity. Qed.

Lemma member_children_attach (chs : option (list value)) (data : props) :
  NoDup (keys data) ->
  lookup_prop "children" data = None ->
  lookup_member "children" (members (attach_children chs data))
  = attached chs ≫= JSON_stringify.
Proof.
  intros Hnd Hnone.
  rewrite lookup_members by now apply NoDup_attach_children.
  rewrite lookup_attach_children. simpl. rewrite Hnone.
  now destruct (attached chs).
Qed.

Lemma member_children (node : SceneNode) :
  member "children" (serialize node)
  = match child_nodes node with
    | [] => None
    | cs => Some (JArray (map serialize cs))
    end.
Proof.
  rewrite serialize_fields. unfold fields. simpl.
  rewrite member_children_attach
    by (apply NoDup_type_specific || apply type_specific_children).
  unfold child_nodes.
  destruct (node_children node) as [[|c cs]|]; simpl; try reflexivity.
  now rewrite map_map.
Qed.

Lemma json_children_serialize (node : SceneNode) :
  json_children (serialize node) = map serialize (child_nodes node).
Proof.
  unfold json_children. rewrite member_children.
  now destruct (child_nodes node).
Qed.

Lemma countNodes_unfold (node : SceneNode) :
  countNodes node = S (sum_list (map countNodes (child_nodes node))).
Proof. destruct node as [? ? ? ? ? ? ? ? ? [cs|]]; reflexivity. Qed.

Lemma depth_unfold (node : SceneNode) :
  depth node = S (max_list (map depth (child_nodes node))).
Proof. destruct node as [? ? ? ? ? ? ? ? ? [cs|]]; reflexivity. Qed.

Lemma json_count_object (ms : list (string * json)) :
  json_count (JObject ms)
  = S (sum_list (map json_count (json_children (JObject ms)))).
Proof.
  unfold json_children. cbn -[String.eqb]. f_equal.
  induction ms as [|[k x] r IH]; [reflexivity|].
  cbn -[String.eqb]. destruct (String.eqb "children" k); [|exact IH].
  destruct x as [| | | |l|]; try reflexivity.
  induction l as [|c l IHl]; [reflexivity|].
  cbn -[String.eqb]. now rewrite IHl.
Qed.

Lemma json_depth_object (ms : list (string * json)) :
  json_depth (JObject ms)
  = S (max_list (map json_depth (json_children (JObject ms)))).
Proof.
  unfold json_children. cbn -[String.eqb]. f_equal.
  induction ms as [|[k x] r IH]; [reflexivity|].
  cbn -[String.eqb]. destruct (String.eqb "children" k); [|exact IH].
  destruct x as [| | | |l|]; try reflexivity.
  induction l as [|c l IHl]; [reflexivity|].
  cbn -[String.eqb]. now rewrite IHl.
Qed.

Lemma map_ext_Forall_eq {A B : Type} (f g : A -> B) (l : list A) :
  Forall (fun a => f a = g a) l -> map f l = map g l.
Proof. induction 1; simpl; congruence. Qed.

Lemma child_nodes_Forall (P : SceneNode -> Prop) (node : SceneNode) :
  (forall cs, node_children node = Some cs -> Forall P cs) ->
  Forall P (child_nodes node).
Proof.
  unfold child_nodes. destruct (node_children node) as [cs|]; simpl; auto.
Qed.

Lemma json_count_serialize (node : SceneNode) :
  json_count (serialize node) = countNodes node.
Proof.
  induction node as [node IH] using SceneNode_tree_ind.
  apply child_nodes_Forall in IH.
  rewrite countNodes_unfold, <- (map_ext_Forall_eq _ _ _ IH).
  rewrite <- map_map, <- json_children_serialize.
  rewrite serialize_fields. apply json_count_object.
Qed.

Lemma json_depth_serialize (node : SceneNode) :
  json_depth (serialize node) = depth node.
Proof.
  induction node as [node IH] using SceneNode_tree_ind.
  apply child_nodes_Forall in IH.
  rewrite depth_unfold, <- (map_ext_Forall_eq _ _ _ IH).
  rewrite <- map_map, <- json_children_serialize.
  rewrite serialize_fields. apply json_depth_object.
Qed.

Lemma flat_map_json_children (ns : list SceneNode) :
  flat_map json_children (map serialize ns)
  = map serialize (flat_map child_nodes ns).
Proof.
  induction ns as [|n ns IH]; [reflexivity|].
  simpl. now rewrite json_children_serialize, IH, map_app.
Qed.

Lemma json_level_serialize (d : nat) (ns : list SceneNode) :
  json_level d (map serialize ns) = map serialize (level d ns).
Proof.
  revert ns. induction d as [|d IH]; intros ns; [reflexivity|].
  simpl. now rewrite flat_map_json_children, IH.
Qed.

(** *** The variant that lists property names *)

Lemma names_processNode_unfold (Object_keys : SceneNode -> list string) (node : SceneNode) :
  PropertyNames.processNode Object_keys node
  = VObject
      (attach_children
         (map (PropertyNames.processNode Object_keys) <$> node_children node)
         (PropertyNames.initial_fields Object_keys node)).
Proof.
  destruct node as [? ? ? ? ? ? ? ? ? [cs|]]; [|reflexivity].
  cbn [PropertyNames.processNode fmap option_fmap option_map attach_children
       node_children].
  now rewrite length_map.
Qed.

Lemma names_NoDup_initial (Object_keys : SceneNode -> list string) (node : SceneNode) :
  NoDup (keys (PropertyNames.initial_fields Object_keys node)).
Proof. decide_closed. Qed.

Lemma names_member (Object_keys : SceneNode -> list string) (k : string) (node : SceneNode) :
  member k (PropertyNames.serialize Object_keys node)
  = lookup_prop k
      (attach_children
         (map (PropertyNames.processNode Object_keys) <$> node_children node)
         (PropertyNames.initial_fields Object_keys node)) ≫= JSON_stringify.
Proof.
  unfold PropertyNames.serialize, element.
  rewrite names_processNode_unfold. cbn [JSON_stringify default]. fold members.
  cbn [member]. apply lookup_members, NoDup_attach_children, names_NoDup_initial.
Qed.

Lemma names_member_children (Object_keys : SceneNode -> list string) (node : SceneNode) :
  member "children" (PropertyNames.serialize Object_keys node)
  = match child_nodes node with
    | [] => None
    | cs => Some (JArray (map (PropertyNames.serialize Object_keys) cs))
    end.
Proof.
  rewrite names_member, lookup_attach_children. unfold child_nodes.
  destruct (node_children node) as [[|c cs]|]; simpl; try reflexivity.
  now rewrite map_map.
Qed.

(** The variant writes six of the eight common fields: [id] and [visible]
    are not in its literal. *)
Lemma names_variant_lacks_id_visible (Object_keys : SceneNode -> list string) (node : SceneNode) :
  member "id" (PropertyNames.serialize Object_keys node) = None
  /\ member "visible" (PropertyNames.serialize Object_keys node) = None
  /\ member "type" (PropertyNames.serialize Object_keys node)
     = Some (JString (node_type node))
  /\ member "name" (PropertyNames.serialize Object_keys node)
     = Some (JString (node_name node)).
Proof.
  rewrite !names_member, !lookup_attach_children. repeat split.
Qed.

(** The record the variant writes for the sample frame has neither [id] nor
    [visible], although the host lists the name [id] under
    [otherProperties]: not every record has the eight common fields. *)
Lemma names_variant_misses_common_fields :
  member "id" (PropertyNames.serialize sample_Object_keys sample_frame) = None
  /\ member "visible" (PropertyNames.serialize sample_Object_keys sample_frame)
     = None
  /\ member "otherProperties"
       (PropertyNames.serialize sample_Object_keys sample_frame)
     = Some (JArray [ JString "id" ])
  /\ ~ Forall
        (fun k =>
           is_Some (member k (PropertyNames.serialize sample_Object_keys
                                sample_frame)))
        [ "type"; "name"; "x"; "y"; "width"; "height"; "id"; "visible" ].
Proof.
  split; [reflexivity|]. split; [reflexivity|]. split; [reflexivity|].
  intros H.
  do 6 (apply Forall_cons in H as [_ H]).
  apply Forall_cons in H as [[j Hid] _].
  discriminate Hid.
Qed.

(** C3.  For every input node, whatever its type, the record written by the
    exporter of [widget-src/code.tsx] has the eight common fields type, name,
    x, y, width, height, id and visible, each holding the node's own value.
    The record written by the variant that lists property names has the six
    fields type, name, x, y, width and height, with the same values, and
    neither id nor visible. *)
Theorem common_fields_per_exporter (node : SceneNode) :
  (member "type" (serialize node) = Some (JString (node_type node))
   /\ member "name" (serialize node) = Some (JString (node_name node))
   /\ member "x" (serialize node) = Some (element (VNumber (node_x node)))
   /\ member "y" (serialize node) = Some (element (VNumber (node_y node)))
   /\ member "width" (serialize node)
      = Some (element (VNumber (node_width node)))
   /\ member "height" (serialize node)
      = Some (element (VNumber (node_height node)))
   /\ member "id" (serialize node) = Some (JString (node_id node))
   /\ member "visible" (serialize node) = Some (JBool (node_visible node)))
  /\ (forall Object_keys,
        member "type" (PropertyNames.serialize Object_keys node)
        = Some (JString (node_type node))
        /\ member "name" (PropertyNames.serialize Object_keys node)
           = Some (JString (node_name node))
        /\ member "x" (PropertyNames.serialize Object_keys node)
           = Some (element (VNumber (node_x node)))
        /\ member "y" (PropertyNames.serialize Object_keys node)
           = Some (element (VNumber (node_y node)))
        /\ member "width" (PropertyNames.serialize Object_keys node)
           = Some (element (VNumber (node_width node)))
        /\ member "height" (PropertyNames.serialize Object_keys node)
           = Some (element (VNumber (node_height node)))
        /\ member "id" (PropertyNames.serialize Object_keys node) = None
        /\ member "visible" (PropertyNames.serialize Object_keys node) = None).
Proof.
  split; [apply common_fields_always_present|].
  intros Object_keys.
  rewrite !names_member, !lookup_attach_children.
  cbn [String.eqb Ascii.eqb Bool.eqb PropertyNames.initial_fields lookup_prop
       mbind option_bind].
  repeat split.
  - now destruct (node_x node).
  - now destruct (node_y node).
  - now destruct (node_width node).
  - now destruct (node_height node).
Qed.

(** ** Children and the shape of the tree *)

(** C4.  For every input node, the serialized record has a children key if
    and only if the node has a child sequence and that sequence is not
    empty; a node without children, or with an empty child sequence, gets no
    children key at all, and in particular not an empty array.  This holds
    for the exporter and for its variant that lists property names. *)
Theorem children_key_iff (node : SceneNode) :
  (is_Some (member "children" (serialize node)) <-> child_nodes node <> [])
  /\ (has_prop "children" (fields node) = true <-> child_nodes node <> [])
  /\ member "children" (serialize node) <> Some (JArray [])
  /\ (forall Object_keys,
        (is_Some (member "children" (PropertyNames.serialize Object_keys node))
         <-> child_nodes node <> [])
        /\ member "children" (PropertyNames.serialize Object_keys node)
           <> Some (JArray [])).
Proof.
  split; [|split; [|split]].
  - rewrite member_children. destruct (child_nodes node); split;
      (congruence || eauto || intros [? [=]]).
  - unfold has_prop. rewrite lookup_fields. cbn [String.eqb Ascii.eqb Bool.eqb].
    unfold child_nodes. rewrite bool_decide_eq_true.
    destruct (node_children node) as [[|c cs]|]; simpl; split;
      (congruence || eauto || intros [? [=]]).
  - rewrite member_children. destruct (child_nodes node); discriminate.
  - intros Object_keys. rewrite names_member_children.
    destruct (child_nodes node); split; try discriminate; split;
      (congruence || eauto || intros [? [=]]).
Qed.

Lemma export_empty (figma : Figma) :
  page_selection (currentPage figma) = [] ->
  ui_posted (exportSelectedWithDescendantsToJSON figma)
  = ui_posted figma
    ++ [ {| msg_type := "export";
            msg_data := Some (JObject [ ("error", JString "No elements selected") ]) |} ].
Proof.
  intros Hsel. unfold exportSelectedWithDescendantsToJSON. now rewrite Hsel.
Qed.

Lemma export_selection (figma : Figma) :
  page_selection (currentPage figma) <> [] ->
  ui_posted (exportSelectedWithDescendantsToJSON figma)
  = ui_posted figma
    ++ [ {| msg_type := "export";
            msg_data :=
              Some (JObject
                [ ("pageName", JString (page_name (currentPage figma)));
                  ("pageId", JString (page_id (currentPage figma)));
                  ("selectedNodes",
                   JArray (map serialize (page_selection (currentPage figma)))) ]) |} ].
Proof.
  intros Hsel. unfold exportSelectedWithDescendantsToJSON.
  destruct (page_selection (currentPage figma)) as [|r rs] eqn:Heq;
    [contradiction|].
  cbn [length Nat.eqb]. unfold selectionData. rewrite Heq.
  cbn [postMessage ui_posted JSON_stringify default]. now rewrite map_map.
Qed.

Lemma names_export_selection (Object_keys : SceneNode -> list string) (figma : Figma) :
  page_selection (currentPage figma) <> [] ->
  ui_posted (PropertyNames.exportSelectedWithDescendantsToJSON Object_keys figma)
  = ui_posted figma
    ++ [ {| msg_type := "export";
            msg_data :=
              Some (JObject
                [ ("pageName", JString (page_name (currentPage figma)));
                  ("pageId", JString (page_id (currentPage figma)));
                  ("selectedNodes",
                   JArray (map (PropertyNames.serialize Object_keys)
                             (page_selection (currentPage figma)))) ]) |} ].
Proof.
  intros Hsel. unfold PropertyNames.exportSelectedWithDescendantsToJSON.
  destruct (page_selection (currentPage figma)) as [|r rs] eqn:Heq;
    [contradiction|].
  cbn [length Nat.eqb]. unfold PropertyNames.selectionData. rewrite Heq.
  cbn [postMessage ui_posted JSON_stringify default]. now rewrite map_map.
Qed.

(** C5.  For every non-empty selection the exported tree mirrors the input
    tree: [selectedNodes] is the list of the serialized roots in the order
    of the selection, the children of every record are the serialized
    children of its node in their order, at every depth the records are the
    serialized nodes of that depth (so their number is the same), and the
    total number of records and the nesting depth are those of the input. *)
Theorem output_mirrors_input (figma : Figma) :
  page_selection (currentPage figma) <> [] ->
  exists doc,
    ui_posted (exportSelectedWithDescendantsToJSON figma)
    = ui_posted figma ++ [ {| msg_type := "export"; msg_data := Some doc |} ]
    /\ selectedNodes doc = map serialize (page_selection (currentPage figma))
    /\ (forall i : nat,
          selectedNodes doc !! i
          = serialize <$> page_selection (currentPage figma) !! i)
    /\ (forall node,
          json_children (serialize node) = map serialize (child_nodes node))
    /\ (forall d,
          json_level d (selectedNodes doc)
          = map serialize (level d (page_selection (currentPage figma))))
    /\ (forall d,
          length (json_level d (selectedNodes doc))
          = length (level d (page_selection (currentPage figma))))
    /\ sum_list (map json_count (selectedNodes doc))
       = sum_list (map countNodes (page_selection (currentPage figma)))
    /\ max_list (map json_depth (selectedNodes doc))
       = max_list (map depth (page_selection (currentPage figma))).
Proof.
  intros Hsel. eexists. split; [apply export_selection, Hsel|].
  cbn [selectedNodes member lookup_member String.eqb Ascii.eqb Bool.eqb].
  split; [reflexivity|]. split; [|split; [|split; [|split; [|split]]]].
  - intros i. apply list_lookup_fmap.
  - apply json_children_serialize.
  - intros d. apply json_level_serialize.
  - intros d. now rewrite json_level_serialize, length_map.
  - rewrite map_map. f_equal. apply map_ext. intros n. apply json_count_serialize.
  - rewrite map_map. f_equal. apply map_ext. intros n. apply json_depth_serialize.
Qed.

Lemma output_mirrors_input_witness :
  page_selection (currentPage sample_host) <> []
  /\ exists doc,
       ui_posted (exportSelectedWithDescendantsToJSON sample_host)
       = [ {| msg_type := "export"; msg_data := Some doc |} ]
       /\ length (selectedNodes doc) = 2%nat
       /\ length (json_level 1 (selectedNodes doc)) = 2%nat
       /\ sum_list (map json_count (selectedNodes doc)) = 4%nat
       /\ max_list (map json_depth (selectedNodes doc)) = 2%nat.
Proof.
  assert (H : page_selection (currentPage sample_host) <> []) by discriminate.
  split; [exact H|].
  destruct (output_mirrors_input sample_host H)
    as (doc & Hposted & Hsel & _ & _ & _ & Hlevel & Hcount & Hdepth).
  exists doc. split; [exact Hposted|].
  split; [now rewrite Hsel|]. split; [now rewrite Hlevel|].
  split; [now rewrite Hcount | now rewrite Hdepth].
Defined.

(** C6.  The export posts the error payload, an object whose only member is
    error: "No elements selected", exactly when the selection is empty, and
    then no envelope is built; for every non-empty selection it posts the
    envelope of pageName, pageId and selectedNodes.  This holds for the
    exporter and for its variant that lists property names. *)
Theorem empty_selection_iff_error (figma : Figma) :
  (ui_posted (exportSelectedWithDescendantsToJSON figma)
   = ui_posted figma
     ++ [ {| msg_type := "export";
             msg_data := Some (JObject [ ("error", JString "No elements selected") ]) |} ]
   <-> page_selection (currentPage figma) = [])
  /\ match page_selection (currentPage figma) with
     | [] =>
         ui_posted (exportSelectedWithDescendantsToJSON figma)
         = ui_posted figma
           ++ [ {| msg_type := "export";
                   msg_data :=
                     Some (JObject [ ("error", JString "No elements selected") ]) |} ]
     | r :: rs =>
         ui_posted (exportSelectedWithDescendantsToJSON figma)
         = ui_posted figma
           ++ [ {| msg_type := "export";
                   msg_data :=
                     Some (JObject
                       [ ("pageName", JString (page_name (currentPage figma)));
                         ("pageId", JString (page_id (currentPage figma)));
                         ("selectedNodes", JArray (map serialize (r :: rs))) ]) |} ]
     end
  /\ (forall Object_keys,
        match page_selection (currentPage figma) with
        | [] =>
            ui_posted (PropertyNames.exportSelectedWithDescendantsToJSON Object_keys figma)
            = ui_posted figma
              ++ [ {| msg_type := "export";
                      msg_data :=
                        Some (JObject [ ("error", JString "No elements selected") ]) |} ]
        | r :: rs =>
            ui_posted (PropertyNames.exportSelectedWithDescendantsToJSON Object_keys figma)
            = ui_posted figma
              ++ [ {| msg_type := "export";
                      msg_data :=
                        Some (JObject
                          [ ("pageName", JString (page_name (currentPage figma)));
                            ("pageId", JString (page_id (currentPage figma)));
                            ("selectedNodes",
                             JArray (map (PropertyNames.serialize Object_keys) (r :: rs))) ]) |} ]
        end).
Proof.
  split; [|split].
  - split; [|apply export_empty].
    intros Hposted.
    destruct (page_selection (currentPage figma)) as [|r rs] eqn:Heq;
      [reflexivity|].
    rewrite export_selection in Hposted by (rewrite Heq; discriminate).
    apply app_inv_head in Hposted. discriminate Hposted.
  - destruct (page_selection (currentPage figma)) as [|r rs] eqn:Heq.
    + now apply export_empty.
    + rewrite <- Heq. apply export_selection. rewrite Heq. discriminate.
  - intros Object_keys.
    destruct (page_selection (currentPage figma)) as [|r rs] eqn:Heq.
    + unfold PropertyNames.exportSelectedWithDescendantsToJSON. now rewrite Heq.
    + rewrite <- Heq. apply names_export_selection. rewrite Heq. discriminate.
Qed.

(** ** The walk ends *)

Lemma mapM_within (stack : nat) (cs : list SceneNode) :
  Forall (fun c => forall st,
            (depth c <= st -> processNode_within st c = Some (processNode c))
            /\ (st < depth c -> processNode_within st c = None)) cs ->
  (max_list (map depth cs) <= stack ->
     mapM (processNode_within stack) cs = Some (map processNode cs))
  /\ (stack < max_list (map depth cs) ->
        mapM (processNode_within stack) cs = None).
Proof.
  induction 1 as [|c cs Hc _ [IHle IHlt]]; simpl.
  - split; [reflexivity | lia].
  - destruct (Hc stack) as [Hle Hlt]. split; intros Hd.
    + rewrite Hle, IHle by lia. reflexivity.
    + destruct (le_lt_dec (depth c) stack) as [Hc'|Hc'].
      * rewrite Hle, IHlt by lia. reflexivity.
      * now rewrite Hlt.
Qed.

Lemma processNode_within_spec (node : SceneNode) (stack : nat) :
  (depth node <= stack ->
     processNode_within stack node = Some (processNode node))
  /\ (stack < depth node -> processNode_within stack node = None).
Proof.
  revert stack. induction node as [node IH] using SceneNode_tree_ind.
  intros [|stack]; rewrite depth_unfold.
  - split; [lia | reflexivity].
  - cbn [processNode_within]. rewrite processNode_unfold. unfold child_nodes.
    destruct (node_children node) as [cs|] eqn:Hcs; cbn [default fmap option_fmap option_map].
    + destruct (mapM_within stack cs (IH cs eq_refl)) as [Hle Hlt].
      change (id cs) with cs. destruct cs as [|c cs'].
      * split; [reflexivity|]. simpl. lia.
      * cbn [length Nat.ltb Nat.leb attach_children].
        split; intros Hd.
        -- now rewrite Hle by lia.
        -- now rewrite Hlt by lia.
    + split; [reflexivity|]. simpl. lia.
Qed.

(** C9.  For every input tree the walk ends and returns the complete record
    to its caller: [processNode] gives a result on every node, and run with
    room for a bounded number of nested calls it returns that result exactly
    when the room is at least the depth of the tree, and overflows exactly
    when it is less.  The walk needs as many nested calls as the tree is
    deep; no depth is refused. *)
Theorem walk_terminates (node : SceneNode) :
  processNode_within (depth node) node = Some (processNode node)
  /\ (forall stack,
        processNode_within stack node = Some (processNode node)
        <-> depth node <= stack)
  /\ (forall stack,
        processNode_within stack node = None <-> stack < depth node).
Proof.
  split; [apply processNode_within_spec; lia|].
  split; intros stack; destruct (processNode_within_spec node stack) as [Hle Hlt];
    (split; [|assumption]); intros H;
    destruct (le_lt_dec (depth node) stack) as [Hd|Hd]; try assumption;
    [rewrite Hlt in H by assumption | rewrite Hle in H by assumption];
    discriminate H.
Qed.

Lemma chain_depth (d : nat) : depth (chain d) = S d.
Proof.
  induction d as [|d IH]; [reflexivity|].
  rewrite depth_unfold. cbn [chain with_children child_nodes node_children default].
  change (id [chain d]) with [chain d]. simpl. rewrite IH. lia.
Qed.

(** Every depth is walked to the end, given the room for it. *)
Lemma chain_walked (d : nat) :
  processNode_within (S d) (chain d) = Some (processNode (chain d))
  /\ processNode_within d (chain d) = None.
Proof.
  split; apply processNode_within_spec; rewrite chain_depth; lia.
Qed.

(** ** Visibility *)

Lemma with_visible_same (node : SceneNode) :
  with_visible (node_visible node) node = node.
Proof. now destruct node. Qed.

Lemma type_specific_with_visible (b : bool) (node : SceneNode) :
  type_specific (with_visible b node) (common_fields (with_visible b node))
  = set_prop "visible" (VBool b) (type_specific node (common_fields node)).
Proof.
  unfold type_specific.
  change (node_type (with_visible b node)) with (node_type node).
  destruct (select_clause _ _) as [[]|]; cbn [run_clause];
    change (node_has (with_visible b node) "layoutMode")
      with (node_has node "layoutMode");
    try destruct (node_has node "layoutMode"); reflexivity.
Qed.

Lemma visible_is_key (node : SceneNode) :
  "visible" ∈ keys (type_specific node (common_fields node)).
Proof.
  destruct (decide ("visible" ∈ keys (type_specific node (common_fields node))))
    as [|Hout]; [assumption|].
  apply lookup_prop_None in Hout.
  now erewrite lookup_common in Hout by reflexivity.
Qed.

Lemma fields_with_visible (b : bool) (node : SceneNode) :
  fields (with_visible b node) = set_prop "visible" (VBool b) (fields node).
Proof.
  unfold fields. rewrite type_specific_with_visible.
  change (node_children (with_visible b node)) with (node_children node).
  destruct (node_children node) as [cs|]; cbn [fmap option_fmap option_map attach_children];
    [|reflexivity].
  destruct (0 <? length (map processNode cs))%nat; [|reflexivity].
  symmetry. apply set_prop_comm; [discriminate | apply visible_is_key].
Qed.

(** C10.  The visibility flag never affects the walk: a node with visible =
    false is serialized as the same node with visible = true would be, the
    only difference being the value of the visible field.  Its children are
    all serialized, in order, and the record has as many descendants as the
    node. *)
Theorem visibility_only_recorded (node : SceneNode) :
  node_visible node = false ->
  processNode node
  = VObject (set_prop "visible" (VBool false) (fields (with_visible true node)))
  /\ member "visible" (serialize node) = Some (JBool false)
  /\ (forall k, k <> "visible" ->
        member k (serialize node) = member k (serialize (with_visible true node)))
  /\ json_children (serialize node) = map serialize (child_nodes node)
  /\ json_count (serialize node) = countNodes node.
Proof.
  intros Hvis.
  assert (Hf : fields node
               = set_prop "visible" (VBool false) (fields (with_visible true node))).
  { rewrite fields_with_visible, set_prop_twice.
    rewrite <- (with_visible_same node) at 1. rewrite Hvis.
    apply fields_with_visible. }
  split; [now rewrite processNode_fields, Hf|].
  split; [|split; [|split]].
  - erewrite member_of_common by reflexivity. now rewrite Hvis.
  - intros k Hk. rewrite !member_serialize, Hf, lookup_set_prop.
    destruct (String.eqb_spec k "visible"); [contradiction | reflexivity].
  - apply json_children_serialize.
  - apply json_count_serialize.
Qed.

Lemma visibility_only_recorded_witness :
  node_visible sample_hidden = false
  /\ member "visible" (serialize sample_hidden) = Some (JBool false)
  /\ json_children (serialize sample_hidden)
     = map serialize [sample_text "title" "2:1"; sample_text "body" "2:2"]
  /\ json_count (serialize sample_hidden) = 3%nat.
Proof.
  split; [reflexivity|].
  destruct (visibility_only_recorded sample_hidden eq_refl)
    as (_ & Hv & _ & Hc & Hn).
  split; [exact Hv|]. split; [exact Hc | exact Hn].
Defined.

(** ** Scenarios *)

(** One rectangle without children, [cornerRadius] 4 and mixed [fills]:
    [cornerRadius] is written, [fills] and [children] are not. *)
Example rectangle_scenario :
  serialize sample_rect
  = JObject
      [ ("type", JString "RECTANGLE"); ("name", JString "box");
        ("x", JNumber 0); ("y", JNumber 0);
        ("width", JNumber 100); ("height", JNumber 40);
        ("id", JString "7:1"); ("visible", JBool true);
        ("cornerRadius", JNumber 4); ("strokes", JArray []) ].
Proof. reflexivity. Qed.

(** A rectangle whose [strokes] is the sentinel: the object holds the symbol,
    the document has no [strokes]. *)
Example mixed_strokes_scenario :
  get_prop "strokes" (fields sample_mixed_strokes) = figma_mixed
  /\ member "strokes" (serialize sample_mixed_strokes) = None.
Proof. split; reflexivity. Qed.

(** One frame with two text children: two records under [children], in the
    order of the input, each with its [characters]. *)
Example frame_scenario :
  map (member "name") (json_children (serialize sample_frame))
  = [ Some (JString "title"); Some (JString "body") ]
  /\ map (member "characters") (json_children (serialize sample_frame))
     = [ Some (JString "Hello"); Some (JString "Hello") ].
Proof. split; reflexivity. Qed.

(** A text node with mixed [fontSize]: the object has the property, holding
    [undefined]; the document does not have it. *)
Example mixed_fontSize_scenario :
  lookup_prop "fontSize" (fields (sample_text "title" "2:1")) = Some VUndefined
  /\ member "fontSize" (serialize (sample_text "title" "2:1")) = None.
Proof. split; reflexivity. Qed.

(** The walk of the frame needs two nested calls. *)
Example frame_needs_two_calls :
  processNode_within 1 sample_frame = None
  /\ processNode_within 2 sample_frame = Some (processNode sample_frame).
Proof. split; reflexivity. Qed.

(** * Further properties of the exporter *)

(** ** The schema of a record *)

Lemma keys_type_specific (node : SceneNode) :
  keys (type_specific node (common_fields node))
  = keys (common_fields node) ++ assigned_fields node.
Proof.
  unfold type_specific, assigned_fields.
  destruct (select_clause (node_type node) case_labels) as [[]|];
    cbn [run_clause]; try destruct (node_has node "layoutMode"); reflexivity.
Qed.

Lemma children_not_key (node : SceneNode) :
  "children" ∉ keys (type_specific node (common_fields node)).
Proof. apply lookup_prop_None, type_specific_children. Qed.

Lemma fields_children_last (node : SceneNode) :
  fields node
  = type_specific node (common_fields node)
    ++ match child_nodes node with
       | [] => []
       | cs => [ ("children", VArray (map processNode cs)) ]
       end.
Proof.
  unfold fields, child_nodes.
  destruct (node_children node) as [[|c cs]|]; cbn [fmap option_fmap option_map
    attach_children default map length Nat.ltb Nat.leb];
    rewrite ?app_nil_r; try reflexivity.
  apply set_prop_new, children_not_key.
Qed.

(** The properties of a record and their order: the eight of the literal,
    then those the clause of the node's type assigns, in the order of its
    statements, then [children] when the node has children.  The document
    has no member under any other name. *)
Theorem record_schema (node : SceneNode) :
  keys (fields node)
  = [ "type"; "name"; "x"; "y"; "width"; "height"; "id"; "visible" ]
    ++ assigned_fields node
    ++ match child_nodes node with
       | [] => []
       | _ :: _ => [ "children" ]
       end
  /\ (forall k, is_Some (member k (serialize node)) -> k ∈ keys (fields node)).
Proof.
  split.
  - rewrite fields_children_last. unfold keys at 1.
    rewrite map_app. fold (keys (type_specific node (common_fields node))).
    rewrite keys_type_specific, <- app_assoc.
    now destruct (child_nodes node).
  - intros k [j Hj]. rewrite serialize_fields in Hj. cbn [member] in Hj.
    apply keys_members.
    destruct (decide (k ∈ map fst (members (fields node)))) as [|Hout];
      [assumption|].
    apply lookup_member_None in Hout. congruence.
Qed.

(** ** The clauses, one by one *)

Lemma member_type_specific (k : string) (node : SceneNode) :
  k <> "children" ->
  member k (serialize node)
  = lookup_prop k (type_specific node (common_fields node)) ≫= JSON_stringify.
Proof.
  intros Hk. rewrite member_serialize, lookup_fields.
  destruct (String.eqb_spec k "children"); [contradiction | reflexivity].
Qed.

(** A text node: [characters] and the two alignments are written as the
    node has them; [fontSize], [fontName] and [fills] are written as the node
    has them unless they are the sentinel, and left out when they are. *)
Theorem text_fields (node : SceneNode) :
  node_type node = "TEXT" ->
  member "characters" (serialize node)
  = JSON_stringify (node_get node "characters")
  /\ member "textAlignHorizontal" (serialize node)
     = JSON_stringify (node_get node "textAlignHorizontal")
  /\ member "textAlignVertical" (serialize node)
     = JSON_stringify (node_get node "textAlignVertical")
  /\ member "fontSize" (serialize node)
     = JSON_stringify (unless_mixed (node_get node "fontSize"))
  /\ member "fontName" (serialize node)
     = JSON_stringify (unless_mixed (node_get node "fontName"))
  /\ member "fills" (serialize node)
     = JSON_stringify (unless_mixed (node_get node "fills")).
Proof.
  intros Hty.
  repeat split; rewrite member_type_specific by discriminate;
    unfold type_specific; rewrite Hty; reflexivity.
Qed.

Lemma text_fields_witness :
  node_type (sample_text "title" "2:1") = "TEXT"
  /\ member "characters" (serialize (sample_text "title" "2:1"))
     = Some (JString "Hello")
  /\ member "fontSize" (serialize (sample_text "title" "2:1")) = None.
Proof.
  split; [reflexivity|].
  destruct (text_fields (sample_text "title" "2:1") eq_refl)
    as (Hc & _ & _ & Hs & _).
  split; [exact Hc | exact Hs].
Defined.

(** A rectangle: [strokes] is written as the node has it; [cornerRadius],
    [fills] and [strokeWeight] are written as the node has them unless they
    are the sentinel, and left out when they are. *)
Theorem rectangle_fields (node : SceneNode) :
  node_type node = "RECTANGLE" ->
  member "strokes" (serialize node)
  = JSON_stringify (node_get node "strokes")
  /\ member "cornerRadius" (serialize node)
     = JSON_stringify (unless_mixed (node_get node "cornerRadius"))
  /\ member "fills" (serialize node)
     = JSON_stringify (unless_mixed (node_get node "fills"))
  /\ member "strokeWeight" (serialize node)
     = JSON_stringify (unless_mixed (node_get node "strokeWeight")).
Proof.
  intros Hty.
  repeat split; rewrite member_type_specific by discriminate;
    unfold type_specific; rewrite Hty; reflexivity.
Qed.

Lemma rectangle_fields_witness :
  node_type sample_rect = "RECTANGLE"
  /\ member "strokes" (serialize sample_rect) = Some (JArray [])
  /\ member "cornerRadius" (serialize sample_rect) = Some (JNumber 4)
  /\ member "fills" (serialize sample_rect) = None.
Proof.
  split; [reflexivity|].
  destruct (rectangle_fields sample_rect eq_refl) as (Hs & Hc & Hf & _).
  split; [exact Hs|]. split; [exact Hc | exact Hf].
Defined.

(** The types that have a clause which assigns properties. *)
Lemma no_clause_fields (node : SceneNode) :
  node_type node ∉ [ "FRAME"; "INSTANCE"; "COMPONENT"; "TEXT"; "RECTANGLE";
                      "COMPONENT_SET" ] ->
  type_specific node (common_fields node) = common_fields node.
Proof.
  intros Hty. repeat (apply not_elem_of_cons in Hty as [? Hty]).
  unfold type_specific. cbn [select_clause case_labels].
  repeat match goal with
    | |- context [String.eqb (node_type node) ?s] =>
        destruct (String.eqb_spec (node_type node) s)
    end; try contradiction; reflexivity.
Qed.

(** A node of type VECTOR, or of any type the [switch] has no label for, is
    written with the eight common fields and its children, and nothing
    else. *)
Theorem other_types_common_only (node : SceneNode) :
  node_type node ∉ [ "FRAME"; "INSTANCE"; "COMPONENT"; "TEXT"; "RECTANGLE";
                      "COMPONENT_SET" ] ->
  fields node
  = common_fields node
    ++ match child_nodes node with
       | [] => []
       | cs => [ ("children", VArray (map processNode cs)) ]
       end.
Proof.
  intros Hty. now rewrite fields_children_last, no_clause_fields.
Qed.

Lemma other_types_common_only_witness :
  (node_type sample_vector ∉ [ "FRAME"; "INSTANCE"; "COMPONENT"; "TEXT";
                                "RECTANGLE"; "COMPONENT_SET" ])
  /\ fields sample_vector = common_fields sample_vector
  /\ member "vectorPaths" (serialize sample_vector) = None.
Proof.
  assert (H : node_type sample_vector ∉ [ "FRAME"; "INSTANCE"; "COMPONENT";
                                           "TEXT"; "RECTANGLE"; "COMPONENT_SET" ])
    by decide_closed.
  split; [exact H|].
  pose proof (other_types_common_only sample_vector H) as Hf.
  split; [exact Hf | reflexivity].
Defined.

(** A node of type COMPONENT runs the clause of the frame-like nodes and no
    other: its record has the layout fields when the node has [layoutMode],
    and never [componentId] or [instanceName]. *)
Theorem component_is_frame_like (node : SceneNode) :
  node_type node = "COMPONENT" ->
  assigned_fields node
  = (if node_has node "layoutMode" then layout_fields else [])
  /\ has_prop "componentId" (fields node) = false
  /\ has_prop "instanceName" (fields node) = false
  /\ member "componentId" (serialize node) = None
  /\ member "instanceName" (serialize node) = None.
Proof.
  intros Hty.
  assert (Hc : lookup_prop "componentId" (fields node) = None
               /\ lookup_prop "instanceName" (fields node) = None).
  { rewrite !lookup_fields. unfold type_specific. rewrite Hty.
    cbn [String.eqb Ascii.eqb Bool.eqb select_clause case_labels run_clause].
    unfold copy. destruct (node_has node "layoutMode");
      rewrite ?lookup_set_prop; split; reflexivity. }
  destruct Hc as [Hc Hi].
  split; [unfold assigned_fields; now rewrite Hty|].
  unfold has_prop. rewrite !member_serialize, Hc, Hi.
  repeat split; apply bool_decide_eq_false; intros [? [=]].
Qed.

Lemma component_is_frame_like_witness :
  node_type sample_component = "COMPONENT"
  /\ assigned_fields sample_component = layout_fields
  /\ member "componentId" (serialize sample_component) = None.
Proof.
  split; [reflexivity|].
  destruct (component_is_frame_like sample_component eq_refl)
    as (Ha & _ & _ & Hc & _).
  split; [exact Ha | exact Hc].
Defined.

(** ** Where the sentinel can remain in the object *)

(** The object [processNode] returns holds the sentinel only in a property
    that is assigned without the test against [figma.mixed], and only when
    the node's attribute of that name is the sentinel. *)
Theorem sentinel_only_unguarded (node : SceneNode) (k : string) :
  lookup_prop k (fields node) = Some figma_mixed ->
  k ∈ unguarded_fields /\ node_get node k = figma_mixed.
Proof.
  rewrite lookup_fields.
  destruct (String.eqb_spec k "children") as [->|_].
  { destruct (node_children node) as [[|c cs]|]; discriminate. }
  run_switch node;
    case_key k ltac:(
      let H := fresh "H" in
      intros H; injection H as H;
      first [ discriminate H
            | now apply unless_mixed_not_mixed in H
            | split; [decide_closed | exact H] ]);
    cbn [lookup_prop common_fields];
    case_key k ltac:(discriminate); discriminate.
Qed.

Lemma sentinel_only_unguarded_witness :
  lookup_prop "strokes" (fields sample_mixed_strokes) = Some figma_mixed
  /\ "strokes" ∈ unguarded_fields
  /\ node_get sample_mixed_strokes "strokes" = figma_mixed.
Proof.
  split; [reflexivity|].
  apply (sentinel_only_unguarded sample_mixed_strokes "strokes"). reflexivity.
Defined.

(** ** Attributes the walk does not read *)

Lemma node_get_with_extra (extra : gmap string value) (node : SceneNode) (k : string) :
  extra !! k = node_extra node !! k ->
  node_get (with_extra extra node) k = node_get node k.
Proof. unfold node_get. cbn [with_extra node_extra]. now intros ->. Qed.

Lemma node_has_with_extra (extra : gmap string value) (node : SceneNode) (k : string) :
  extra !! k = node_extra node !! k ->
  node_has (with_extra extra node) k = node_has node k.
Proof. unfold node_has. cbn [with_extra node_extra]. now intros ->. Qed.

(** The record of a node depends on the attributes of its subtype only
    through those the clause of its type reads: changing, adding or removing
    any other attribute changes nothing in the object or in the document. *)
Theorem unread_attributes_ignored (extra : gmap string value) (node : SceneNode) :
  (forall k,
      k ∈ from_option attributes_read []
            (select_clause (node_type node) case_labels) ->
      extra !! k = node_extra node !! k) ->
  processNode (with_extra extra node) = processNode node
  /\ serialize (with_extra extra node) = serialize node.
Proof.
  intros Hsame.
  assert (Heq : processNode (with_extra extra node) = processNode node).
  { rewrite !processNode_unfold.
    change (node_children (with_extra extra node)) with (node_children node).
    change (common_fields (with_extra extra node)) with (common_fields node).
    f_equal. f_equal. unfold type_specific.
    change (node_type (with_extra extra node)) with (node_type node).
    destruct (select_clause (node_type node) case_labels) as [c|];
      [|reflexivity].
    cbn [from_option] in Hsame.
    destruct c; cbn [run_clause]; unfold copy, copy_unless_mixed;
      rewrite ?node_has_with_extra by (apply Hsame; decide_closed);
      rewrite ?node_get_with_extra by (apply Hsame; decide_closed);
      reflexivity. }
  split; [exact Heq|]. unfold serialize. now rewrite Heq.
Qed.

Lemma unread_attributes_ignored_witness :
  serialize
    (with_extra (<["opacity" := VNumber (Finite 1)]>
                   (node_extra (sample_text "title" "2:1")))
       (sample_text "title" "2:1"))
  = serialize (sample_text "title" "2:1").
Proof.
  apply (unread_attributes_ignored
           (<["opacity" := VNumber (Finite 1)]>
              (node_extra (sample_text "title" "2:1")))
           (sample_text "title" "2:1")).
  intros k Hk. cbn in Hk.
  repeat (apply elem_of_cons in Hk as [->|Hk]; [reflexivity|]).
  now apply elem_of_nil in Hk.
Defined.

(** ** What the export does to the host *)

(** One run of the export reads the page and leaves it as it is, keeps the
    messages posted before and posts exactly one more, of type "export" and
    with a document; a second run posts the same message again. *)
Theorem export_posts_one_message (figma : Figma) :
  currentPage (exportSelectedWithDescendantsToJSON figma) = currentPage figma
  /\ exists doc,
       ui_posted (exportSelectedWithDescendantsToJSON figma)
       = ui_posted figma ++ [ {| msg_type := "export"; msg_data := Some doc |} ]
       /\ ui_posted (exportSelectedWithDescendantsToJSON
                       (exportSelectedWithDescendantsToJSON figma))
          = ui_posted figma
            ++ [ {| msg_type := "export"; msg_data := Some doc |};
                 {| msg_type := "export"; msg_data := Some doc |} ].
Proof.
  unfold exportSelectedWithDescendantsToJSON.
  destruct (length (page_selection (currentPage figma)) =? 0)%nat eqn:Hlen;
    cbn [postMessage currentPage ui_posted]; rewrite Hlen;
    cbn [postMessage currentPage ui_posted];
    (split; [reflexivity|]); eexists;
    (split; [reflexivity|]); now rewrite <- app_assoc.
Qed.

(** ** The plugin script and the messages of the UI *)

Lemma is_close_spec (v : value) : is_close v = true <-> v = VString "close".
Proof.
  destruct v; simpl; split; try discriminate.
  - intros H. apply String.eqb_eq in H. now subst.
  - intros [= ->]. reflexivity.
Qed.

Lemma on_message_cases (msg : value) (p : Plugin) :
  match on_message msg p with
  | None => msg = VUndefined \/ msg = VNull
  | Some p' =>
      msg <> VUndefined /\ msg <> VNull
      /\ plugin_figma p' = plugin_figma p
      /\ plugin_ui p' = plugin_ui p
      /\ plugin_onmessage p' = plugin_onmessage p
      /\ (plugin_closed p' = true
          <-> plugin_closed p = true
              \/ exists ps, msg = VObject ps
                            /\ get_prop "type" ps = VString "close")
  end.
Proof.
  destruct msg as [| | | | | | |ps]; cbn [on_message]; auto;
    try (repeat split; try discriminate; auto;
         intros [?|(ps & [=] & _)]; assumption).
  destruct (is_close (get_prop "type" ps)) eqn:Hc.
  - apply is_close_spec in Hc. repeat split; try discriminate; eauto.
  - repeat split; try discriminate; auto.
    intros [?|(ps' & [= <-] & Ht)]; [assumption|].
    apply is_close_spec in Ht. congruence.
Qed.

(** The handler fails exactly on the messages [undefined] and [null].  On
    any other message it touches neither the host nor the UI nor the handler,
    and it closes the plugin exactly when the message is an object whose
    [type] is the string "close". *)
Theorem on_message_closes_on_request (msg : value) (p : Plugin) :
  (on_message msg p = None <-> msg = VUndefined \/ msg = VNull)
  /\ (forall p',
        on_message msg p = Some p' ->
        plugin_figma p' = plugin_figma p
        /\ plugin_ui p' = plugin_ui p
        /\ plugin_onmessage p' = plugin_onmessage p
        /\ (plugin_closed p' = true
            <-> plugin_closed p = true
                \/ exists ps, msg = VObject ps
                              /\ get_prop "type" ps = VString "close")).
Proof.
  pose proof (on_message_cases msg p) as H.
  destruct (on_message msg p) as [q|].
  - destruct H as (Hu & Hn & Hrest). split.
    + split; [discriminate|]. intros [?|?]; contradiction.
    + intros p' [= <-]. exact Hrest.
  - split.
    + split; auto.
    + intros p' [=].
Qed.

(** After the script the UI is shown 300 by 400 with the given page, the
    plugin is open, and the host holds one more message, of type "export".
    From then on a message of the UI never changes what was posted; it
    closes the plugin exactly when it is an object whose [type] is "close",
    and it makes the handler fail exactly when it is [undefined] or
    [null]. *)
Theorem script_then_messages (html : string) (figma : Figma) :
  plugin_ui (plugin_script html figma)
  = Some {| ui_html := html; ui_width := 300; ui_height := 400 |}
  /\ plugin_closed (plugin_script html figma) = false
  /\ plugin_figma (plugin_script html figma)
     = exportSelectedWithDescendantsToJSON figma
  /\ (forall msg,
        deliver msg (plugin_script html figma) = None
        <-> msg = VUndefined \/ msg = VNull)
  /\ (forall msg p',
        deliver msg (plugin_script html figma) = Some p' ->
        plugin_figma p' = exportSelectedWithDescendantsToJSON figma
        /\ (plugin_closed p' = true
            <-> exists ps, msg = VObject ps
                           /\ get_prop "type" ps = VString "close")).
Proof.
  split; [reflexivity|]. split; [reflexivity|]. split; [reflexivity|].
  change (deliver ?m (plugin_script html figma))
    with (on_message m (plugin_script html figma)).
  split.
  - intros msg.
    pose proof (on_message_cases msg (plugin_script html figma)) as H.
    destruct (on_message msg (plugin_script html figma)) as [p'|].
    + destruct H as (Hu & Hn & _). split; [discriminate|].
      intros [?|?]; contradiction.
    + split; auto.
  - intros msg p' Hd.
    pose proof (on_message_cases msg (plugin_script html figma)) as H.
    rewrite Hd in H. destruct H as (_ & _ & Hf & _ & _ & Hc).
    split; [exact Hf|]. rewrite Hc. split; [|auto].
    intros [Hclosed|?]; [discriminate Hclosed | assumption].
Qed.

Lemma script_then_messages_witness :
  (exists p',
      deliver close_message (plugin_script "<html>" sample_host) = Some p'
      /\ plugin_closed p' = true
      /\ length (ui_posted (plugin_figma p')) = 1%nat)
  /\ deliver VNull (plugin_script "<html>" sample_host) = None.
Proof.
  destruct (script_then_messages "<html>" sample_host)
    as (_ & _ & _ & Hfail & Hclose).
  split.
  - eexists. split; [reflexivity|].
    destruct (Hclose close_message
                (closePlugin (plugin_script "<html>" sample_host)) eq_refl)
      as [Hf Hc].
    split; [reflexivity | now rewrite Hf].
  - apply Hfail. right. reflexivity.
Defined.

(** ** The variant that lists property names, continued *)

Lemma names_serialize_object (Object_keys : SceneNode -> list string) (node : SceneNode) :
  PropertyNames.serialize Object_keys node
  = JObject
      (members
         (attach_children
            (map (PropertyNames.processNode Object_keys) <$> node_children node)
            (PropertyNames.initial_fields Object_keys node))).
Proof.
  unfold PropertyNames.serialize, element.
  now rewrite names_processNode_unfold.
Qed.

(** The record of the variant: the six fields type, name, x, y, width and
    height with the values the reference exporter writes, the names
    [Object.keys (node)] gives under [otherProperties], an array even when
    there are none, and neither [id] nor [visible]. *)
Theorem names_record (Object_keys : SceneNode -> list string) (node : SceneNode) :
  member "otherProperties" (PropertyNames.serialize Object_keys node)
  = Some (JArray (map JString (Object_keys node)))
  /\ member "id" (PropertyNames.serialize Object_keys node) = None
  /\ member "visible" (PropertyNames.serialize Object_keys node) = None
  /\ member "type" (PropertyNames.serialize Object_keys node)
     = member "type" (serialize node)
  /\ member "name" (PropertyNames.serialize Object_keys node)
     = member "name" (serialize node)
  /\ member "x" (PropertyNames.serialize Object_keys node)
     = member "x" (serialize node)
  /\ member "y" (PropertyNames.serialize Object_keys node)
     = member "y" (serialize node)
  /\ member "width" (PropertyNames.serialize Object_keys node)
     = member "width" (serialize node)
  /\ member "height" (PropertyNames.serialize Object_keys node)
     = member "height" (serialize node).
Proof.
  repeat split;
    rewrite ?(member_of_common "type" (VString (node_type node))),
            ?(member_of_common "name" (VString (node_name node))),
            ?(member_of_common "x" (VNumber (node_x node))),
            ?(member_of_common "y" (VNumber (node_y node))),
            ?(member_of_common "width" (VNumber (node_width node))),
            ?(member_of_common "height" (VNumber (node_height node)))
      by reflexivity;
    rewrite names_member, lookup_attach_children;
    cbn [String.eqb Ascii.eqb Bool.eqb PropertyNames.initial_fields lookup_prop
         mbind option_bind]; try reflexivity.
  cbn [JSON_stringify]. rewrite map_map. reflexivity.
Qed.

(** The tree written by the variant has the shape of the input, and so the
    shape of the tree the reference exporter writes: the children of a record
    are the records of the node's children in their order, and the number of
    records and the nesting depth are those of the node. *)
Theorem names_mirrors_input (Object_keys : SceneNode -> list string) (node : SceneNode) :
  json_children (PropertyNames.serialize Object_keys node)
  = map (PropertyNames.serialize Object_keys) (child_nodes node)
  /\ json_count (PropertyNames.serialize Object_keys node) = countNodes node
  /\ json_depth (PropertyNames.serialize Object_keys node) = depth node
  /\ json_count (PropertyNames.serialize Object_keys node)
     = json_count (serialize node)
  /\ json_depth (PropertyNames.serialize Object_keys node)
     = json_depth (serialize node).
Proof.
  assert (Hch : forall n,
             json_children (PropertyNames.serialize Object_keys n)
             = map (PropertyNames.serialize Object_keys) (child_nodes n)).
  { intros n. unfold json_children. rewrite names_member_children.
    now destruct (child_nodes n). }
  assert (Hcount : forall n,
             json_count (PropertyNames.serialize Object_keys n) = countNodes n).
  { intros n. induction n as [n IH] using SceneNode_tree_ind.
    apply child_nodes_Forall in IH.
    rewrite countNodes_unfold, <- (map_ext_Forall_eq _ _ _ IH).
    rewrite <- map_map, <- Hch.
    rewrite names_serialize_object. apply json_count_object. }
  assert (Hdepth : forall n,
             json_depth (PropertyNames.serialize Object_keys n) = depth n).
  { intros n. induction n as [n IH] using SceneNode_tree_ind.
    apply child_nodes_Forall in IH.
    rewrite depth_unfold, <- (map_ext_Forall_eq _ _ _ IH).
    rewrite <- map_map, <- Hch.
    rewrite names_serialize_object. apply json_depth_object. }
  split; [apply Hch|]. split; [apply Hcount|]. split; [apply Hdepth|].
  now rewrite Hcount, Hdepth, json_count_serialize, json_depth_serialize.
Qed.
